(** * Benetech: collation, step functions and driver of the chart-to-text
      fine-tuning code, embedded from [benetech_decoder/modules.py],
      [benetech_pl/train.py] and [main.py]. *)

From Stdlib Require Import ZArith QArith.
From stdpp Require Import gmap strings list.

(** ** Python exceptions and fallible results *)

Inductive exn :=
| KeyError (key : string)
| IndexError
| AttributeError (name : string)
| TypeError (msg : string)
| ValueError (msg : string)
| RuntimeError (msg : string).

Inductive result (A : Type) :=
| Ok (a : A)
| Raise (e : exn).
Arguments Ok {A} a.
Arguments Raise {A} e.

Global Instance result_ret : MRet result := λ A a, Ok a.
Global Instance result_bind : MBind result := λ A B f m,
  match m with
  | Ok a => f a
  | Raise e => Raise e
  end.

(** ** Tensors: a shape and the row-major payload.  Float payloads are
    carried as opaque numbers; no claim looks inside them. *)

Module Torch.

Record tensor := Tensor { shape : list nat; data : list Z }.

(** [torch.stack]: a new leading dimension; refuses an empty list and
    tensors of unequal size. *)
Definition stack (ts : list tensor) : result tensor :=
  match ts with
  | [] => Raise (RuntimeError "stack expects a non-empty TensorList")
  | t :: rest =>
      if bool_decide (Forall (λ u, shape u = shape t) rest)
      then Ok (Tensor (length ts :: shape t) (concat (data <$> ts)))
      else Raise (RuntimeError "stack expects each tensor to be equal size")
  end.

(** [Tensor.squeeze()]: every dimension of size one is dropped. *)
Definition squeeze (t : tensor) : tensor :=
  Tensor (filter (λ d, d ≠ 1) (shape t)) (data t).

(** [len(t)]: the size of the first dimension; a 0-d tensor has none. *)
Definition len (t : tensor) : result nat :=
  match shape t with
  | [] => Raise (TypeError "len() of a 0-d tensor")
  | n :: _ => Ok n
  end.

(** A 2-d integer tensor from equally long rows ([return_tensors="pt"]). *)
Definition of_rows (rows : list (list Z)) : tensor :=
  Tensor [length rows; max_list_with length rows] (concat rows).

End Torch.
Export Torch.

(** Values stored under the keys of a batch mapping. *)
Inductive value :=
| VTensor (t : tensor)
| VTexts (l : list string).

(** ** The command line and the run configuration ([main.py]) *)

Module Cli.

Record Config := {
  data_dir : string;
  model_save_dir : string;
  model_path : string;
  processor_path : string;
  project : string;
  save_model : bool;
  max_patches : Z;
  max_length : nat;
  batch_size : Z;
  epochs : Z;
  learning_rate : Q;
  verbose : Z;
  num_workers : Z;
  seed : Z;
  accelerator : string;
  fast_dev_run : bool;
  overfit_batches : Z;
  devices : Z;
  precision : Z;
  log_every_n_steps : Z;
  accumulate_grad_batches : Z
}.

(** The module-level [config] of [main.py]. *)
Definition config : Config := {|
  data_dir := "/data/bartley/gpu_test/bartley-benetech-resized/";
  model_save_dir := "/data/bartley/gpu_test/models/";
  model_path := "google/deplot";
  processor_path := "google/deplot";
  project := "Benetech";
  save_model := true;
  max_patches := 1024;
  max_length := 512;
  batch_size := 3;
  epochs := 1;
  learning_rate := (1 # 100000)%Q;
  verbose := 2;
  num_workers := 4;
  seed := 0;
  accelerator := "gpu";
  fast_dev_run := false;
  overfit_batches := 0;
  devices := 1;
  precision := 32;
  log_every_n_steps := 10;
  accumulate_grad_batches := 1
|}.

(** One occurrence of a flag on the command line, with the integer that
    [type=int] read for it. *)
Inductive flag :=
| FastDevRun
| Seed (v : Z)
| BatchSize (v : Z)
| AccumulateGradBatches (v : Z)
| MaxPatches (v : Z).

(** The namespace [parser.parse_args()] returns: one attribute per
    [add_argument]. *)
Record Namespace := {
  ns_fast_dev_run : bool;
  ns_seed : Z;
  ns_batch_size : Z;
  ns_accumulate_grad_batches : Z;
  ns_max_patches : Z
}.

(** The defaults as the five [add_argument] calls give them
    ([store_true] starts from [False]). *)
Definition defaults (c : Config) : Namespace := {|
  ns_fast_dev_run := false;
  ns_seed := seed c;
  ns_batch_size := batch_size c;
  ns_accumulate_grad_batches := accumulate_grad_batches c;
  ns_max_patches := batch_size c
|}.

Definition store (ns : Namespace) (f : flag) : Namespace :=
  match f with
  | FastDevRun =>
      {| ns_fast_dev_run := true; ns_seed := ns_seed ns;
         ns_batch_size := ns_batch_size ns;
         ns_accumulate_grad_batches := ns_accumulate_grad_batches ns;
         ns_max_patches := ns_max_patches ns |}
  | Seed v =>
      {| ns_fast_dev_run := ns_fast_dev_run ns; ns_seed := v;
         ns_batch_size := ns_batch_size ns;
         ns_accumulate_grad_batches := ns_accumulate_grad_batches ns;
         ns_max_patches := ns_max_patches ns |}
  | BatchSize v =>
      {| ns_fast_dev_run := ns_fast_dev_run ns; ns_seed := ns_seed ns;
         ns_batch_size := v;
         ns_accumulate_grad_batches := ns_accumulate_grad_batches ns;
         ns_max_patches := ns_max_patches ns |}
  | AccumulateGradBatches v =>
      {| ns_fast_dev_run := ns_fast_dev_run ns; ns_seed := ns_seed ns;
         ns_batch_size := ns_batch_size ns;
         ns_accumulate_grad_batches := v;
         ns_max_patches := ns_max_patches ns |}
  | MaxPatches v =>
      {| ns_fast_dev_run := ns_fast_dev_run ns; ns_seed := ns_seed ns;
         ns_batch_size := ns_batch_size ns;
         ns_accumulate_grad_batches := ns_accumulate_grad_batches ns;
         ns_max_patches := v |}
  end.

(** [parser.parse_args()]: later occurrences of a flag win. *)
Definition parser_parse_args (c : Config) (argv : list flag) : Namespace :=
  foldl store (defaults c) argv.

(** [for key, value in vars(args).items(): setattr(config, key, value)]. *)
Definition update_config (c : Config) (args : Namespace) : Config := {|
  data_dir := data_dir c;
  model_save_dir := model_save_dir c;
  model_path := model_path c;
  processor_path := processor_path c;
  project := project c;
  save_model := save_model c;
  max_patches := ns_max_patches args;
  max_length := max_length c;
  batch_size := ns_batch_size args;
  epochs := epochs c;
  learning_rate := learning_rate c;
  verbose := verbose c;
  num_workers := num_workers c;
  seed := ns_seed args;
  accelerator := accelerator c;
  fast_dev_run := ns_fast_dev_run args;
  overfit_batches := overfit_batches c;
  devices := devices c;
  precision := precision c;
  log_every_n_steps := log_every_n_steps c;
  accumulate_grad_batches := ns_accumulate_grad_batches args
|}.

Definition parse_args (c : Config) (argv : list flag) : Config :=
  let args := parser_parse_args c argv in
  update_config c args.

(** A flag is left unset when no occurrence of it is on the command line. *)
Definition sets_fast_dev_run (f : flag) : bool :=
  match f with FastDevRun => true | _ => false end.
Definition sets_seed (f : flag) : bool :=
  match f with Seed _ => true | _ => false end.
Definition sets_batch_size (f : flag) : bool :=
  match f with BatchSize _ => true | _ => false end.
Definition sets_accumulate_grad_batches (f : flag) : bool :=
  match f with AccumulateGradBatches _ => true | _ => false end.
Definition sets_max_patches (f : flag) : bool :=
  match f with MaxPatches _ => true | _ => false end.

Definition unset (sets : flag → bool) (argv : list flag) : Prop :=
  existsb sets argv = false.

End Cli.

(** ** Encoded samples, the text processor, the model's keyword arguments *)

Record encoding := Encoding {
  flattened_patches : tensor;
  attention_mask : tensor;
  text : string
}.

(** The tokenizer behind the processor: [tokenize] gives the ids of one
    text with its special tokens, [truncate] cuts a sequence down to
    [max_length] ([truncation=True]); padding goes to the right. *)
Record Tokenizer := {
  eos_token_id : Z;
  pad_token_id : Z;
  tokenize : string → list Z;
  truncate : nat → list Z → list Z;
  batch_decode : tensor → bool → list string
}.

Definition truncate_spec (tok : Tokenizer) : Prop :=
  ∀ n ids, length (truncate tok n ids) = length ids `min` n ∧
           (length ids ≤ n → truncate tok n ids = ids).

(** Keyword arguments of [model.generate]. *)
Record generate_kwargs := {
  gen_flattened_patches : tensor;
  gen_attention_mask : tensor;
  max_new_tokens : nat;
  early_stopping : bool;
  use_cache : bool;
  gen_eos_token_id : Z;
  gen_pad_token_id : Z
}.

(** [str.format] of a run name that may be [None]. *)
Definition py_str (o : option string) : string :=
  match o with
  | Some s => s
  | None => "None"
  end.

(** Hyper-parameters saved by the two [save_hyperparameters()] calls. *)
Record DataHParams := {
  dm_data_dir : string;
  dm_processor_path : string;
  dm_batch_size : Z;
  dm_max_length : nat;
  dm_num_workers : Z;
  dm_max_patches : Z
}.

Record HParams := {
  hp_learning_rate : Q;
  hp_max_length : nat;
  hp_model_path : string;
  hp_model_save_dir : string;
  hp_run_name : option string;
  hp_save_model : bool
}.

(** Keyword arguments of [pl.Trainer]. *)
Record Trainer := {
  tr_accelerator : string;
  tr_benchmark : bool;
  tr_devices : Z;
  tr_fast_dev_run : bool;
  tr_max_epochs : Z;
  tr_num_sanity_val_steps : Z;
  tr_overfit_batches : Z;
  tr_precision : Z;
  tr_log_every_n_steps : Z;
  tr_accumulate_grad_batches : Z
}.

(** What the external training loop asks of the module, in order: the
    indices of the samples of each batch, and the epoch-end hook. *)
Inductive hook :=
| TrainBatch (idxs : list nat)
| ValidBatch (idxs : list nat) (batch_idx : nat)
| ValidationEpochEnd.

(** ** A small concrete processor on which the definitions can be run *)

Module Sample.

(** One id per character, then the end-of-sequence id. *)
Definition char_ids (s : string) : list Z :=
  (λ a, Z.of_nat (Ascii.nat_of_ascii a)) <$> String.list_ascii_of_string s.

Definition tok : Tokenizer := {|
  eos_token_id := 1;
  pad_token_id := 0;
  tokenize := λ s, char_ids s ++ [1%Z];
  truncate := λ n ids, take n ids;
  batch_decode := λ _ _, []
|}.

(** An image is one grey level; every patch row repeats it twice. *)
Definition patches (img : nat) (max_patches : Z) : tensor * tensor :=
  (Tensor [1; Z.to_nat max_patches; 2]
          (replicate (Z.to_nat max_patches * 2) (Z.of_nat img)),
   Tensor [1; Z.to_nat max_patches]
          (replicate (Z.to_nat max_patches) 1%Z)).

Definition texts : list string := ["ab"; "abcd"].

(** A collated batch of two samples with one patch row each. *)
Definition labels : tensor := Tensor [2; 4] [97; 98; 1; 0; 97; 98; 99; 100]%Z.
Definition fp : tensor := Tensor [2; 2] [5; 5; 7; 7]%Z.
Definition am : tensor := Tensor [2] [1; 1]%Z.

Definition batch : gmap string value :=
  <["attention_mask" := VTensor am]>
    (<["flattened_patches" := VTensor fp]>
       (<["texts" := VTexts texts]> (<["labels" := VTensor labels]> ∅))).

(** Stand-ins for the model and the metric: the loss counts the label
    ids, generation answers with the end-of-sequence id, the metric
    counts the scored texts. *)
Definition forward {model : Type} (m : model) (fp am labels : tensor) : Z :=
  Z.of_nat (length (data labels)).

Definition generate {model : Type} (m : model) (kw : generate_kwargs)
  : tensor :=
  Tensor [1; 1] [gen_eos_token_id kw].

Definition metric_update (m : nat) (ground_truths predictions : list string)
  : nat :=
  m + length ground_truths.

Definition metric_compute (m : nat) : Z := Z.of_nat m.

Definition hp : HParams := {|
  hp_learning_rate := (1 # 100000)%Q;
  hp_max_length := 512;
  hp_model_path := "google/deplot";
  hp_model_save_dir := "/models/";
  hp_run_name := Some "run-1";
  hp_save_model := true
|}.

(** The configuration of [main.py] with another model identifier. *)
Definition other_model : Cli.Config :=
  {| Cli.data_dir := Cli.data_dir Cli.config;
     Cli.model_save_dir := Cli.model_save_dir Cli.config;
     Cli.model_path := "google/matcha";
     Cli.processor_path := Cli.processor_path Cli.config;
     Cli.project := Cli.project Cli.config;
     Cli.save_model := Cli.save_model Cli.config;
     Cli.max_patches := Cli.max_patches Cli.config;
     Cli.max_length := Cli.max_length Cli.config;
     Cli.batch_size := Cli.batch_size Cli.config;
     Cli.epochs := Cli.epochs Cli.config;
     Cli.learning_rate := Cli.learning_rate Cli.config;
     Cli.verbose := Cli.verbose Cli.config;
     Cli.num_workers := Cli.num_workers Cli.config;
     Cli.seed := Cli.seed Cli.config;
     Cli.accelerator := Cli.accelerator Cli.config;
     Cli.fast_dev_run := Cli.fast_dev_run Cli.config;
     Cli.overfit_batches := Cli.overfit_batches Cli.config;
     Cli.devices := Cli.devices Cli.config;
     Cli.precision := Cli.precision Cli.config;
     Cli.log_every_n_steps := Cli.log_every_n_steps Cli.config;
     Cli.accumulate_grad_batches := Cli.accumulate_grad_batches Cli.config |}.

End Sample.

Section Benetech.

(** *** External collaborators *)

(** Raw images, loss and score values, model parameters, metric state. *)
Context {image scalar weights metric_state : Type}.

(** The processor: its image half, [processor(images=..., text="",
    return_tensors="pt", max_patches=...)], gives the flattened patches
    and their attention mask, each with a leading dimension of one. *)
Record Processor := {
  image_processor : image → Z → tensor * tensor;
  tokenizer : Tokenizer
}.

(** Width of one flattened patch row. *)
Variable patch_dim : nat.

Definition processor_shapes (p : Processor) : Prop :=
  ∀ img max_patches, (0 < max_patches)%Z →
    shape (image_processor p img max_patches).1
      = [1; Z.to_nat max_patches; patch_dim] ∧
    shape (image_processor p img max_patches).2
      = [1; Z.to_nat max_patches].

(** The model object: the pretrained parameters and the one configuration
    bit [_init_model] sets. *)
Record Model := {
  params : weights;
  is_decoder : bool
}.

Record Logger := { experiment_name : string }.

(** [AutoProcessor.from_pretrained], [Pix2StructForConditionalGeneration
    .from_pretrained], the model's forward loss and [generate], the
    [BenetechMetric] of [benetech_decoder.metrics], [load_dataset], the
    helper [load_logger_and_callbacks] of [benetech_pl.helpers], and the
    order in which the external training loop calls the module. *)
Variable processor_from_pretrained : string → Processor.
Variable model_from_pretrained : string → weights.
Variable forward : Model → tensor → tensor → tensor → scalar.
Variable generate : Model → generate_kwargs → tensor.
Variable metric_init : metric_state.
Variable metric_update : metric_state → list string → list string → metric_state.
Variable metric_compute : metric_state → scalar.
Variable load_dataset : string → string → list (image * string).
Variable load_logger_and_callbacks :
  bool → list (string * string) → Z → string → option Logger.
Variable trainer_plan : Trainer → nat → nat → list hook.

(** *** ImageCaptioningDataset *)

Record ImageCaptioningDataset := {
  dataset : list (image * string);
  ds_processor : Processor;
  ds_max_patches : Z
}.

Definition dataset_len (self : ImageCaptioningDataset) : nat :=
  length (dataset self).

Definition encode_item (p : Processor) (max_patches : Z)
    (item : image * string) : encoding :=
  let enc := image_processor p item.1 max_patches in
  {| flattened_patches := squeeze enc.1;
     attention_mask := squeeze enc.2;
     text := item.2 |}.

Definition getitem (self : ImageCaptioningDataset) (idx : nat)
  : result encoding :=
  match dataset self !! idx with
  | None => Raise IndexError
  | Some item => Ok (encode_item (ds_processor self) (ds_max_patches self) item)
  end.

(** An encoded sample is what [__getitem__] hands out. *)
Definition encoded_sample (p : Processor) (s : encoding) : Prop :=
  ∃ item max_patches, (0 < max_patches)%Z ∧ s = encode_item p max_patches item.

(** *** BenetechDataModule.collator *)

(** [padding="longest"]: every sequence is filled up to the longest one
    of this batch. *)
Definition pad_longest (tok : Tokenizer) (seqs : list (list Z))
  : list (list Z) :=
  let n := max_list_with length seqs in
  (λ ids, ids ++ replicate (n - length ids) (pad_token_id tok)) <$> seqs.

Definition tokenized (tok : Tokenizer) (texts : list string) : list (list Z) :=
  tokenize tok <$> texts.

(** [self.processor(text=texts, padding="longest", truncation=True,
    return_tensors="pt", add_special_tokens=True, max_length=...)]:
    the [input_ids] of the result. *)
Definition processor_text (p : Processor) (max_length : nat)
    (texts : list string) : tensor :=
  let tok := tokenizer p in
  of_rows (pad_longest tok (truncate tok max_length <$> tokenized tok texts)).

Definition collator (p : Processor) (max_length : nat) (batch : list encoding)
  : result (gmap string value) :=
  let texts := text <$> batch in
  let input_ids := processor_text p max_length texts in
  let new_batch : gmap string value :=
    <["texts" := VTexts texts]> (<["labels" := VTensor input_ids]> ∅) in
  fp ← stack (flattened_patches <$> batch);
  am ← stack (attention_mask <$> batch);
  Ok (<["attention_mask" := VTensor am]>
        (<["flattened_patches" := VTensor fp]> new_batch)).

(** The patch tensors of a batch share one shape. *)
Definition same_patch_shape (batch : list encoding) : Prop :=
  ∀ s s', s ∈ batch → s' ∈ batch →
    shape (flattened_patches s) = shape (flattened_patches s').

(** Length of the longest tokenized text of a batch. *)
Definition longest (tok : Tokenizer) (texts : list string) : nat :=
  max_list_with length (tokenized tok texts).

(** The sequence length of a 2-d label tensor. *)
Definition sequence_length (t : tensor) : option nat := shape t !! 1.

(** The leading dimension of the tensor stored under a key. *)
Definition leading_dim (b : gmap string value) (key : string) : option nat :=
  match b !! key with
  | Some (VTensor t) => shape t !! 0
  | _ => None
  end.

(** *** The run's state: the dictionaries handed around by reference, the
    module's mutable attributes, the calls made to the collaborators, and
    the files written. *)

Inductive event :=
| SeedEverything (seed : Z) (workers : bool)
| ProcessorFromPretrained (path : string)
| LoadLoggerAndCallbacks
| ModelFromPretrained (path : string)
| LoadDataset (data_dir split : string)
| ModelForward (fp am labels : tensor)
| Log (name : string) (v : scalar) (on_epoch : option bool) (batch_size : nat)
| ModelGenerate (kw : generate_kwargs)
| BatchDecode (ids : tensor) (skip_special_tokens : bool)
| MetricUpdate (ground_truths predictions : list string)
| SavePretrained (path : string).

Record state := State {
  heap : gmap nat (gmap string value);
  validation_step_outputs : list value;
  metrics : metric_state;
  events : list event;
  files : gmap string Model
}.

Definition M (A : Type) : Type := state → result A * state.

#[global] Instance M_ret : MRet M := λ A a st, (Ok a, st).
#[global] Instance M_bind : MBind M := λ A B f m st,
  match m st with
  | (Ok a, st') => f a st'
  | (Raise e, st') => (Raise e, st')
  end.

Definition raise {A} (e : exn) : M A := λ st, (Raise e, st).
Definition lift {A} (r : result A) : M A := λ st, (r, st).

Definition emit (ev : event) : M unit := λ st,
  (Ok (), State (heap st) (validation_step_outputs st) (metrics st)
                (events st ++ [ev]) (files st)).

Definition alloc (d : gmap string value) : M nat := λ st,
  let b := fresh (dom (heap st)) in
  (Ok b, State (<[b := d]> (heap st)) (validation_step_outputs st)
               (metrics st) (events st) (files st)).

(** [d.pop(key)] on the dictionary at [b]: the entry leaves the caller's
    dictionary; a missing key is a [KeyError].  References always point at
    a dictionary in a running program. *)
Definition dict_pop (b : nat) (key : string) : M value := λ st,
  match heap st !! b with
  | None => (Raise (RuntimeError "no such object"), st)
  | Some d =>
      match d !! key with
      | None => (Raise (KeyError key), st)
      | Some v =>
          (Ok v, State (<[b := delete key d]> (heap st))
                       (validation_step_outputs st) (metrics st)
                       (events st) (files st))
      end
  end.

Definition set_validation_step_outputs (l : list value) : M unit := λ st,
  (Ok (), State (heap st) l (metrics st) (events st) (files st)).

Definition set_metrics (m : metric_state) : M unit := λ st,
  (Ok (), State (heap st) (validation_step_outputs st) m (events st) (files st)).

Definition get_metrics : M metric_state := λ st, (Ok (metrics st), st).

Definition write_file (path : string) (m : Model) : M unit := λ st,
  (Ok (), State (heap st) (validation_step_outputs st) (metrics st)
                (events st) (<[path := m]> (files st))).

Definition as_tensor (v : value) : result tensor :=
  match v with
  | VTensor t => Ok t
  | VTexts _ => Raise (TypeError "expected a tensor")
  end.

Definition as_texts (v : value) : result (list string) :=
  match v with
  | VTexts l => Ok l
  | VTensor _ => Raise (TypeError "expected a list of texts")
  end.

(** The dictionary [d] holds the three tensors of a batch, [n] being the
    leading dimension of its labels; a batch as the collator builds it
    holds the raw texts too. *)
Record has_tensors (d : gmap string value) (labels fp am : tensor)
    (n : nat) : Prop := {
  batch_labels : d !! "labels" = Some (VTensor labels);
  batch_flattened_patches : d !! "flattened_patches" = Some (VTensor fp);
  batch_attention_mask : d !! "attention_mask" = Some (VTensor am);
  batch_size : len labels = Ok n
}.

Definition is_batch (d : gmap string value) (labels fp am : tensor)
    (texts : list string) (n : nat) : Prop :=
  has_tensors d labels fp am n ∧ d !! "texts" = Some (VTexts texts).

(** *** BenetechModule *)

(** The attributes [__init__] binds once; [validation_step_outputs] and
    the metric live in the state because they are updated in place. *)
Record BenetechModule := {
  hparams : HParams;
  model : Model;
  processor : Processor
}.

Definition _init_model (hp : HParams) : M Model :=
  if decide (hp_model_path hp = "google/deplot") then
    emit (ModelFromPretrained "google/deplot");;
    mret {| params := model_from_pretrained "google/deplot";
            is_decoder := true |}
  else
    raise (ValueError (hp_model_path hp +:+ " is not a valid model")).

Definition _init_metrics : metric_state := metric_init.

Definition BenetechModule_init (hp : HParams) (p : Processor)
  : M BenetechModule :=
  m ← _init_model hp;
  set_validation_step_outputs [];;
  set_metrics _init_metrics;;
  mret {| hparams := hp; model := m; processor := p |}.

Definition _log (stage : string) (loss : scalar) (batch_size : nat) : M unit :=
  emit (Log (stage +:+ "_loss") loss None batch_size).

(** [self.model(flattened_patches=..., attention_mask=..., labels=...)]
    and the [loss] of its outputs. *)
Definition call_model (self : BenetechModule) (fp am labels : tensor)
  : M scalar :=
  emit (ModelForward fp am labels);;
  mret (forward (model self) fp am labels).

Definition call_generate (self : BenetechModule) (kw : generate_kwargs)
  : M tensor :=
  emit (ModelGenerate kw);;
  mret (generate (model self) kw).

Definition call_batch_decode (self : BenetechModule) (ids : tensor)
    (skip_special_tokens : bool) : M (list string) :=
  emit (BatchDecode ids skip_special_tokens);;
  mret (batch_decode (tokenizer (processor self)) ids skip_special_tokens).

(** [self.metrics["benetech"](ground_truths, predictions)]. *)
Definition call_metric (ground_truths predictions : list string) : M unit :=
  emit (MetricUpdate ground_truths predictions);;
  m ← get_metrics;
  set_metrics (metric_update m ground_truths predictions).

(** The shared step.  The three popped values must be tensors for the model
    call to go through; the result is the Python return value, [None] or
    the loss. *)
Definition _shared_step (self : BenetechModule) (batch : nat) (stage : string)
  : M (option scalar) :=
  labels ← dict_pop batch "labels";
  flattened_patches ← dict_pop batch "flattened_patches";
  attention_mask ← dict_pop batch "attention_mask";
  fp ← lift (as_tensor flattened_patches);
  am ← lift (as_tensor attention_mask);
  lb ← lift (as_tensor labels);
  loss ← call_model self fp am lb;
  n ← lift (len lb);
  _log stage loss n;;
  if decide (stage = "valid") then
    predictions ← call_generate self
      {| gen_flattened_patches := fp;
         gen_attention_mask := am;
         max_new_tokens := hp_max_length (hparams self);
         early_stopping := true;
         use_cache := true;
         gen_eos_token_id := eos_token_id (tokenizer (processor self));
         gen_pad_token_id := pad_token_id (tokenizer (processor self)) |};
    predictions ← call_batch_decode self predictions true;
    ground_truths ← dict_pop batch "texts";
    gts ← lift (as_texts ground_truths);
    call_metric gts predictions;;
    m ← get_metrics;
    n' ← lift (len lb);
    emit (Log "benetech_score" (metric_compute m) (Some true) n');;
    mret None
  else
    mret (Some loss).

Definition validation_step (self : BenetechModule) (batch : nat)
    (batch_idx : nat) : M (option scalar) :=
  _shared_step self batch "valid";;
  mret None.

Definition training_step (self : BenetechModule) (batch : nat)
    (stage : string) : M (option scalar) :=
  _shared_step self batch "train".

Definition save_path (hp : HParams) : string :=
  hp_model_save_dir hp +:+ py_str (hp_run_name hp) +:+ ".pt".

Definition save_pretrained (m : Model) (path : string) : M unit :=
  emit (SavePretrained path);;
  write_file path m.

Definition on_train_end (self : BenetechModule) : M unit :=
  if hp_save_model (hparams self) then
    save_pretrained (model self) (save_path (hparams self))
  else
    mret ().

Definition on_validation_epoch_end (self : BenetechModule) : M unit :=
  set_validation_step_outputs [].

(** *** BenetechDataModule *)

Record BenetechDataModule := {
  dm_hparams : DataHParams;
  dm_processor : Processor;
  train_dataset : option ImageCaptioningDataset;
  val_dataset : option ImageCaptioningDataset
}.

Definition BenetechDataModule_init (hp : DataHParams) : M BenetechDataModule :=
  emit (ProcessorFromPretrained (dm_processor_path hp));;
  mret {| dm_hparams := hp;
          dm_processor := processor_from_pretrained (dm_processor_path hp);
          train_dataset := None;
          val_dataset := None |}.

Definition _dataset (self : BenetechDataModule) (train : bool)
  : M ImageCaptioningDataset :=
  let split := if train then "train" else "validation" in
  emit (LoadDataset (dm_data_dir (dm_hparams self)) split);;
  mret {| dataset := load_dataset (dm_data_dir (dm_hparams self)) split;
          ds_processor := dm_processor self;
          ds_max_patches := dm_max_patches (dm_hparams self) |}.

Definition setup (self : BenetechDataModule) (stage : string)
  : M BenetechDataModule :=
  self1 ←
    (if decide (stage = "fit") then
       tr ← _dataset self true;
       va ← _dataset self false;
       mret {| dm_hparams := dm_hparams self;
               dm_processor := dm_processor self;
               train_dataset := Some tr;
               val_dataset := Some va |}
     else mret self);
  if decide (stage = "test") then
    va ← _dataset self1 false;
    mret {| dm_hparams := dm_hparams self1;
            dm_processor := dm_processor self1;
            train_dataset := train_dataset self1;
            val_dataset := Some va |}
  else mret self1.

(** [torch.utils.data.DataLoader(dataset, shuffle=train,
    batch_size=..., collate_fn=self.collator, num_workers=...,
    pin_memory=True)]. *)
Record DataLoader := {
  dl_dataset : ImageCaptioningDataset;
  dl_shuffle : bool;
  dl_batch_size : Z;
  dl_collate_fn : list encoding → result (gmap string value);
  dl_num_workers : Z;
  dl_pin_memory : bool
}.

Definition _dataloader (self : BenetechDataModule)
    (ds : ImageCaptioningDataset) (train : bool) : DataLoader :=
  {| dl_dataset := ds;
     dl_shuffle := train;
     dl_batch_size := dm_batch_size (dm_hparams self);
     dl_collate_fn := collator (dm_processor self)
                               (dm_max_length (dm_hparams self));
     dl_num_workers := dm_num_workers (dm_hparams self);
     dl_pin_memory := true |}.

Definition train_dataloader (self : BenetechDataModule) : M DataLoader :=
  match train_dataset self with
  | None => raise (AttributeError "train_dataset")
  | Some ds => mret (_dataloader self ds true)
  end.

Definition val_dataloader (self : BenetechDataModule) : M DataLoader :=
  match val_dataset self with
  | None => raise (AttributeError "val_dataset")
  | Some ds => mret (_dataloader self ds false)
  end.

Definition test_dataloader (self : BenetechDataModule) : M DataLoader :=
  match val_dataset self with
  | None => raise (AttributeError "val_dataset")
  | Some ds => mret (_dataloader self ds false)
  end.

(** One batch of a data loader: the samples at the given indices,
    collated, as a fresh dictionary. *)
Fixpoint collect {A} (rs : list (result A)) : result (list A) :=
  match rs with
  | [] => Ok []
  | r :: rs' => a ← r; l ← collect rs'; Ok (a :: l)
  end.

Definition load_batch (dl : DataLoader) (idxs : list nat) : M nat :=
  samples ← lift (collect (getitem (dl_dataset dl) <$> idxs));
  b ← lift (dl_collate_fn dl samples);
  alloc b.

(** *** The training loop's calls into the module *)

Definition run_hook (self : BenetechModule) (dm : BenetechDataModule)
    (h : hook) : M unit :=
  match h with
  | TrainBatch idxs =>
      dl ← train_dataloader dm;
      b ← load_batch dl idxs;
      training_step self b "train";;
      mret ()
  | ValidBatch idxs batch_idx =>
      dl ← val_dataloader dm;
      b ← load_batch dl idxs;
      validation_step self b batch_idx;;
      mret ()
  | ValidationEpochEnd => on_validation_epoch_end self
  end.

Fixpoint run_hooks (self : BenetechModule) (dm : BenetechDataModule)
    (hs : list hook) : M unit :=
  match hs with
  | [] => mret ()
  | h :: hs' => run_hook self dm h;; run_hooks self dm hs'
  end.

Definition sizes (dm : BenetechDataModule) : nat * nat :=
  (from_option dataset_len 0 (train_dataset dm),
   from_option dataset_len 0 (val_dataset dm)).

(** [trainer.fit(module, datamodule=data_module)]: the data module is
    set up for the "fit" stage, the loop makes its calls, and the run ends
    with [on_train_end]. *)
Definition fit (trainer : Trainer) (self : BenetechModule)
    (dm : BenetechDataModule) : M unit :=
  dm' ← setup dm "fit";
  run_hooks self dm' (trainer_plan trainer (sizes dm').1 (sizes dm').2);;
  on_train_end self.

(** *** The driver ([benetech_pl/train.py]) *)

Definition train (config : Cli.Config) : M unit :=
  emit (SeedEverything (Cli.seed config) true);;
  data_module ← BenetechDataModule_init
    {| dm_data_dir := Cli.data_dir config;
       dm_batch_size := Cli.batch_size config;
       dm_processor_path := Cli.processor_path config;
       dm_max_length := Cli.max_length config;
       dm_num_workers := Cli.num_workers config;
       dm_max_patches := Cli.max_patches config |};
  emit LoadLoggerAndCallbacks;;
  let logger := load_logger_and_callbacks
    (Cli.fast_dev_run config)
    [("val_loss", "min"); ("train_loss", "min")]
    (Cli.overfit_batches config)
    (Cli.project config) in
  module ← BenetechModule_init
    {| hp_learning_rate := Cli.learning_rate config;
       hp_max_length := Cli.max_length config;
       hp_model_path := Cli.model_path config;
       hp_model_save_dir := Cli.model_save_dir config;
       hp_run_name := experiment_name <$> logger;
       hp_save_model := Cli.save_model config |}
    (dm_processor data_module);
  let trainer :=
    {| tr_accelerator := Cli.accelerator config;
       tr_benchmark := true;
       tr_devices := Cli.devices config;
       tr_fast_dev_run := Cli.fast_dev_run config;
       tr_max_epochs := Cli.epochs config;
       tr_num_sanity_val_steps := 1;
       tr_overfit_batches := Cli.overfit_batches config;
       tr_precision := Cli.precision config;
       tr_log_every_n_steps := Cli.log_every_n_steps config;
       tr_accumulate_grad_batches := Cli.accumulate_grad_batches config |} in
  fit trainer module data_module.

(** [main] of [main.py]. *)
Definition main (config : Cli.Config) : M unit := train config.

(** The keyword arguments the validation step hands to [generate]. *)
Definition generation_kwargs (self : BenetechModule) (fp am : tensor)
  : generate_kwargs :=
  {| gen_flattened_patches := fp;
     gen_attention_mask := am;
     max_new_tokens := hp_max_length (hparams self);
     early_stopping := true;
     use_cache := true;
     gen_eos_token_id := eos_token_id (tokenizer (processor self));
     gen_pad_token_id := pad_token_id (tokenizer (processor self)) |}.

(** The dictionary of a batch once the three tensors have been popped. *)
Definition popped (d : gmap string value) : gmap string value :=
  delete "attention_mask" (delete "flattened_patches" (delete "labels" d)).

(** The calls the training loop can make on a constructed module, and the
    states a run can be in: batches arrive from the data loader, calls
    run to their end or to their exception. *)
Inductive call :=
| TrainingStep (batch : nat) (stage : string)
| ValidationStep (batch batch_idx : nat)
| OnValidationEpochEnd
| OnTrainEnd.

Definition run_call (self : BenetechModule) (c : call) : M unit :=
  match c with
  | TrainingStep batch stage => training_step self batch stage;; mret ()
  | ValidationStep batch batch_idx =>
      validation_step self batch batch_idx;; mret ()
  | OnValidationEpochEnd => on_validation_epoch_end self
  | OnTrainEnd => on_train_end self
  end.

Inductive reachable (self : BenetechModule) (st0 : state) : state → Prop :=
| reach_init : reachable self st0 st0
| reach_call st c :
    reachable self st0 st → reachable self st0 (run_call self c st).2
| reach_batch st d :
    reachable self st0 st → reachable self st0 (alloc d st).2.

(** The events a computation added to the trace. *)
Definition new_events (st st' : state) : list event :=
  drop (length (events st)) (events st').

Definition is_generate (ev : event) : bool :=
  match ev with
  | ModelGenerate _ => true
  | _ => false
  end.

(** A [generate] call carries the configured bound, early stopping and
    the tokenizer's token ids. *)
Definition generation_as_configured (self : BenetechModule) (ev : event)
  : Prop :=
  match ev with
  | ModelGenerate kw =>
      max_new_tokens kw = hp_max_length (hparams self) ∧
      early_stopping kw = true ∧
      gen_eos_token_id kw = eos_token_id (tokenizer (processor self)) ∧
      gen_pad_token_id kw = pad_token_id (tokenizer (processor self))
  | _ => True
  end.

(** How a computation may move the state: an empty
    [validation_step_outputs] stays empty, and the trace only grows, by
    events that satisfy [P]. *)
Definition evolves (P : event → Prop) (st st' : state) : Prop :=
  (validation_step_outputs st = [] → validation_step_outputs st' = []) ∧
  ∃ evs, events st' = events st ++ evs ∧ Forall P evs.

Definition sound (P : event → Prop) {A} (m : M A) : Prop :=
  ∀ st, evolves P st (m st).2.

Definition is_load_dataset (ev : event) : bool :=
  match ev with
  | LoadDataset _ _ => true
  | _ => false
  end.

(** The mask tensors of a batch share one shape. *)
Definition same_mask_shape (batch : list encoding) : Prop :=
  ∀ s s', s ∈ batch → s' ∈ batch →
    shape (attention_mask s) = shape (attention_mask s').

(** A computation moves every state along the relation [R]. *)
Definition respects (R : state → state → Prop) {A} (m : M A) : Prop :=
  ∀ st, R st (m st).2.

Definition keeps_files (st st' : state) : Prop := files st' = files st.

Definition keeps_metrics (st st' : state) : Prop := metrics st' = metrics st.

(** Of the dictionaries only the one at [b] changes, and it only loses
    entries; the files and [validation_step_outputs] stay. *)
Definition touches_only (b : nat) (st st' : state) : Prop :=
  files st' = files st ∧
  validation_step_outputs st' = validation_step_outputs st ∧
  (∀ b', b' ≠ b → heap st' !! b' = heap st !! b') ∧
  (heap st !! b = None → heap st' !! b = None) ∧
  (∀ d, heap st !! b = Some d → ∃ d', heap st' !! b = Some d' ∧ d' ⊆ d).

Definition forward_or_log (ev : event) : Prop :=
  match ev with
  | ModelForward _ _ _ | Log _ _ _ _ => True
  | _ => False
  end.

(** Events of the module's steps and hooks, as opposed to the loading of
    the processor, the model and the datasets. *)
Definition is_loading (ev : event) : bool :=
  match ev with
  | ProcessorFromPretrained _ | ModelFromPretrained _ | LoadDataset _ _ => true
  | _ => false
  end.

Definition is_metric_update (ev : event) : bool :=
  match ev with
  | MetricUpdate _ _ => true
  | _ => false
  end.

(** The dataset [_dataset] builds for a split. *)
Definition split_dataset (self : BenetechDataModule) (split : string)
  : ImageCaptioningDataset :=
  {| dataset := load_dataset (dm_data_dir (dm_hparams self)) split;
     ds_processor := dm_processor self;
     ds_max_patches := dm_max_patches (dm_hparams self) |}.




Definition is_validation_step (c : call) : bool :=
  match c with
  | ValidationStep _ _ => true
  | _ => false
  end.

(** ** Properties *)

(** *** Shapes *)

Lemma squeeze_mask_shape (P P' D : nat) :
  filter (λ d, d ≠ 1) [1; P; D] = filter (λ d, d ≠ 1) [1; P'; D] →
  filter (λ d, d ≠ 1) [1; P] = filter (λ d, d ≠ 1) [1; P'].
Proof.
  rewrite !filter_cons, !filter_nil.
  repeat case_decide; intros Heq; simplify_eq; try done; try congruence.
Qed.

Lemma encoded_sample_mask_shape (p : Processor) (s s' : encoding) :
  processor_shapes p → encoded_sample p s → encoded_sample p s' →
  shape (flattened_patches s) = shape (flattened_patches s') →
  shape (attention_mask s) = shape (attention_mask s').
Proof.
  intros Hp (item & mp & Hmp & ->) (item' & mp' & Hmp' & ->). simpl.
  destruct (Hp item.1 mp Hmp) as [-> ->].
  destruct (Hp item'.1 mp' Hmp') as [-> ->].
  apply squeeze_mask_shape.
Qed.

Lemma stack_same_shape (ts : list tensor) (sh : list nat) :
  ts ≠ [] → Forall (λ t, shape t = sh) ts →
  stack ts = Ok (Tensor (length ts :: sh) (concat (data <$> ts))).
Proof.
  intros Hne Hall. destruct ts as [|t rest]; [done|].
  apply Forall_cons in Hall as [Ht Hrest]. unfold stack.
  rewrite bool_decide_eq_true_2.
  - by rewrite Ht.
  - eapply Forall_impl; [exact Hrest|]. simpl. congruence.
Qed.

(** *** Padding and truncation *)

Lemma max_list_with_length_le (seqs : list (list Z)) (ids : list Z) :
  ids ∈ seqs → length ids ≤ max_list_with length seqs.
Proof.
  induction 1 as [ids seqs|ids ids' seqs _ IH]; simpl; lia.
Qed.

Lemma max_list_with_const (seqs : list (list Z)) (n : nat) :
  seqs ≠ [] → Forall (λ ids, length ids = n) seqs →
  max_list_with length seqs = n.
Proof.
  intros Hne Hall. induction Hall as [|ids seqs Hn Hall IH]; [done|].
  simpl. destruct seqs as [|ids' seqs]; simpl in *; [lia|].
  rewrite Hn. specialize (IH ltac:(done)). simpl in IH. lia.
Qed.

Lemma pad_longest_lengths (tok : Tokenizer) (seqs : list (list Z)) :
  Forall (λ ids, length ids = max_list_with length seqs) (pad_longest tok seqs).
Proof.
  unfold pad_longest. apply Forall_fmap, Forall_forall. intros ids Hin. simpl.
  rewrite length_app, length_replicate.
  pose proof (max_list_with_length_le _ _ Hin). lia.
Qed.

Lemma pad_longest_max (tok : Tokenizer) (seqs : list (list Z)) :
  max_list_with length (pad_longest tok seqs) = max_list_with length seqs.
Proof.
  destruct seqs as [|ids seqs]; [done|].
  apply max_list_with_const; [done|]. apply pad_longest_lengths.
Qed.

Lemma pad_longest_equal_lengths (tok : Tokenizer) (seqs : list (list Z)) (n : nat) :
  Forall (λ ids, length ids = n) seqs → pad_longest tok seqs = seqs.
Proof.
  intros Hall. destruct seqs as [|ids0 seqs0]; [done|].
  unfold pad_longest. rewrite (max_list_with_const _ n); [|done|done].
  induction Hall as [|ids seqs Hn Hall IH]; [done|].
  rewrite fmap_cons, IH, Hn, Nat.sub_diag. simpl. by rewrite app_nil_r.
Qed.

Lemma pad_longest_idempotent (tok : Tokenizer) (seqs : list (list Z)) :
  pad_longest tok (pad_longest tok seqs) = pad_longest tok seqs.
Proof. eapply pad_longest_equal_lengths, pad_longest_lengths. Qed.

Lemma truncate_max (tok : Tokenizer) (n : nat) (seqs : list (list Z)) :
  truncate_spec tok →
  max_list_with length (truncate tok n <$> seqs)
    = max_list_with length seqs `min` n.
Proof.
  intros Htr. induction seqs as [|ids seqs IH]; [simpl; lia|].
  rewrite fmap_cons. cbn [max_list_with]. rewrite IH.
  destruct (Htr n ids) as [-> _]. lia.
Qed.

Lemma truncate_short_all (tok : Tokenizer) (n m : nat) (seqs : list (list Z)) :
  truncate_spec tok → m ≤ n → Forall (λ ids, length ids = m) seqs →
  truncate tok n <$> seqs = seqs.
Proof.
  intros Htr Hle Hall. induction Hall as [|ids seqs Hm Hall IH]; [done|].
  rewrite fmap_cons, IH. destruct (Htr n ids) as [_ Hid].
  rewrite Hid; [done|lia].
Qed.

(** *** The collator *)

(** C1: for a non-empty batch of N encoded samples whose patch tensors
    share one shape, the collator returns a batch in which
    [flattened_patches] and [attention_mask] are the stacks of the
    samples' tensors, with leading dimension N, and the sequence length of
    [labels] is the length of the longest tokenized text of the batch,
    capped at [max_length]. *)
Theorem collator_batch_shapes (p : Processor) (max_length : nat)
    (batch : list encoding) :
  processor_shapes p → truncate_spec (tokenizer p) →
  batch ≠ [] → Forall (encoded_sample p) batch → same_patch_shape batch →
  ∃ b fp am labels,
    collator p max_length batch = Ok b ∧
    b !! "flattened_patches" = Some (VTensor fp) ∧
    stack (flattened_patches <$> batch) = Ok fp ∧
    leading_dim b "flattened_patches" = Some (length batch) ∧
    b !! "attention_mask" = Some (VTensor am) ∧
    stack (attention_mask <$> batch) = Ok am ∧
    leading_dim b "attention_mask" = Some (length batch) ∧
    b !! "labels" = Some (VTensor labels) ∧
    length (shape labels) = 2 ∧
    leading_dim b "labels" = Some (length batch) ∧
    sequence_length labels
      = Some (longest (tokenizer p) (text <$> batch) `min` max_length).
Proof.
  intros Hp Htr Hne Henc Hsame.
  destruct batch as [|s0 rest] eqn:Hb; [done|]. rewrite <- Hb in *.
  assert (Hs0 : s0 ∈ batch) by (rewrite Hb; left).
  assert (Hfp : Forall (λ t, shape t = shape (flattened_patches s0))
                       (flattened_patches <$> batch)).
  { apply Forall_fmap, Forall_forall. intros s Hs. simpl. by apply Hsame. }
  assert (Ham : Forall (λ t, shape t = shape (attention_mask s0))
                       (attention_mask <$> batch)).
  { apply Forall_fmap, Forall_forall. intros s Hs. simpl.
    rewrite Forall_forall in Henc.
    apply (encoded_sample_mask_shape p); auto. }
  apply stack_same_shape in Hfp; [|by rewrite Hb].
  apply stack_same_shape in Ham; [|by rewrite Hb].
  rewrite length_fmap in Hfp, Ham.
  unfold collator. rewrite Hfp, Ham. simpl.
  eexists _, _, _, _. split; [reflexivity|].
  unfold leading_dim, sequence_length.
  rewrite lookup_insert_ne, lookup_insert_eq by done.
  rewrite lookup_insert_eq.
  rewrite !lookup_insert_ne, lookup_insert_eq by done.
  repeat (split; [reflexivity|]).
  unfold processor_text, of_rows, longest. simpl.
  rewrite pad_longest_max, truncate_max by done.
  unfold pad_longest, tokenized. rewrite !length_fmap. done.
Qed.

(** C8: when the tokenized texts of a batch all have one length that does
    not exceed [max_length], tokenizing with "longest" padding leaves every
    sequence as the tokenizer gave it, and padding again changes nothing. *)
Theorem longest_padding_idempotent (p : Processor) (max_length n : nat)
    (texts : list string) :
  truncate_spec (tokenizer p) →
  Forall (λ ids, length ids = n) (tokenized (tokenizer p) texts) →
  n ≤ max_length →
  let tok := tokenizer p in
  let rows := pad_longest tok (truncate tok max_length <$> tokenized tok texts) in
  rows = tokenized tok texts ∧
  pad_longest tok rows = rows ∧
  processor_text p max_length texts = of_rows (tokenized tok texts).
Proof.
  intros Htr Hall Hle tok rows.
  assert (Hrows : rows = tokenized tok texts).
  { unfold rows. rewrite (truncate_short_all tok max_length n) by done.
    by apply (pad_longest_equal_lengths tok _ n). }
  split; [done|]. split.
  - apply pad_longest_idempotent.
  - unfold processor_text. fold tok. fold rows. by rewrite Hrows.
Qed.

(** *** The shared step on a well-formed batch *)

Lemma collator_is_batch (p : Processor) (max_length : nat)
    (batch : list encoding) (d : gmap string value) :
  collator p max_length batch = Ok d →
  ∃ labels fp am, is_batch d labels fp am (text <$> batch) (length batch).
Proof.
  unfold collator. intros H.
  destruct (stack (flattened_patches <$> batch)) as [fp|] eqn:Hfp; [|done].
  destruct (stack (attention_mask <$> batch)) as [am|] eqn:Ham; [|done].
  simpl in H. injection H as <-.
  eexists _, fp, am. split; [split|].
  - by rewrite !lookup_insert_ne, lookup_insert_eq by done.
  - by rewrite lookup_insert_ne, lookup_insert_eq by done.
  - by rewrite lookup_insert_eq.
  - unfold processor_text, of_rows, len, pad_longest, tokenized. simpl.
    by rewrite !length_fmap.
  - by rewrite !lookup_insert_ne, lookup_insert_eq by done.
Qed.

Lemma shared_step_other (self : BenetechModule) (b : nat) (stage : string)
    (st : state) (d : gmap string value) (labels fp am : tensor) (n : nat) :
  stage ≠ "valid" →
  heap st !! b = Some d → has_tensors d labels fp am n →
  _shared_step self b stage st =
    (Ok (Some (forward (model self) fp am labels)),
     State (<[b := popped d]> (heap st)) (validation_step_outputs st)
           (metrics st)
           (events st ++ [ModelForward fp am labels;
                          Log (stage +:+ "_loss")
                              (forward (model self) fp am labels) None n])
           (files st)).
Proof.
  intros Hstage Hb [Hl Hf Ha Hn].
  unfold len in Hn. destruct (shape labels) as [|n' sh] eqn:Hsh; [done|].
  injection Hn as ->.
  unfold _shared_step, dict_pop, mbind, M_bind. simpl.
  rewrite Hb, Hl. simpl. rewrite lookup_insert_eq.
  rewrite lookup_delete_ne, Hf by done. simpl. rewrite lookup_insert_eq.
  rewrite !lookup_delete_ne, Ha by done. simpl.
  unfold lift, len. rewrite Hsh. simpl.
  rewrite decide_False by done. simpl.
  rewrite !insert_insert_eq, <- !(assoc_L (++)). done.
Qed.

Lemma shared_step_valid (self : BenetechModule) (b : nat) (st : state)
    (d : gmap string value) (labels fp am : tensor) (texts : list string)
    (n : nat) :
  heap st !! b = Some d → is_batch d labels fp am texts n →
  let loss := forward (model self) fp am labels in
  let kw := generation_kwargs self fp am in
  let ids := generate (model self) kw in
  let predictions := batch_decode (tokenizer (processor self)) ids true in
  let m := metric_update (metrics st) texts predictions in
  _shared_step self b "valid" st =
    (Ok None,
     State (<[b := delete "texts" (popped d)]> (heap st))
           (validation_step_outputs st) m
           (events st ++ [ModelForward fp am labels;
                          Log "valid_loss" loss None n;
                          ModelGenerate kw;
                          BatchDecode ids true;
                          MetricUpdate texts predictions;
                          Log "benetech_score" (metric_compute m) (Some true) n])
           (files st)).
Proof.
  intros Hb [[Hl Hf Ha Hn] Ht].
  unfold len in Hn. destruct (shape labels) as [|n' sh] eqn:Hsh; [done|].
  injection Hn as ->.
  unfold _shared_step, dict_pop, mbind, M_bind. simpl.
  rewrite Hb, Hl. simpl. rewrite lookup_insert_eq.
  rewrite lookup_delete_ne, Hf by done. simpl. rewrite lookup_insert_eq.
  rewrite !lookup_delete_ne, Ha by done. simpl.
  unfold lift, len. rewrite Hsh. simpl. rewrite lookup_insert_eq.
  rewrite !lookup_delete_ne, Ht by done. simpl. rewrite ?Hsh. simpl.
  rewrite !insert_insert_eq, <- !(assoc_L (++)). done.
Qed.

(** Whatever the dictionary at [b] held, a shared step that returns found
    the three tensors in it (and the texts, in the "valid" stage). *)
Lemma shared_step_ok_inv (self : BenetechModule) (b : nat) (stage : string)
    (st st' : state) (r : option scalar) :
  _shared_step self b stage st = (Ok r, st') →
  ∃ d labels fp am n,
    heap st !! b = Some d ∧ has_tensors d labels fp am n ∧
    (stage = "valid" → ∃ texts, d !! "texts" = Some (VTexts texts)).
Proof.
  unfold _shared_step, dict_pop, mbind, M_bind, lift. simpl.
  destruct (heap st !! b) as [d|] eqn:Hb; [|done].
  destruct (d !! "labels") as [vl|] eqn:Hl; [|done]. simpl.
  rewrite lookup_insert_eq, lookup_delete_ne by done.
  destruct (d !! "flattened_patches") as [vf|] eqn:Hf; [|done]. simpl.
  rewrite lookup_insert_eq, !lookup_delete_ne by done.
  destruct (d !! "attention_mask") as [va|] eqn:Ha; [|done]. simpl.
  destruct vf as [fp|]; [|done]. destruct va as [am|]; [|done].
  destruct vl as [labels|]; [|done]. simpl.
  destruct (len labels) as [n|] eqn:Hn; [|done]. simpl.
  intros H. exists d, labels, fp, am, n. split; [done|]. split; [done|].
  intros ->. simpl in H. rewrite lookup_insert_eq in H.
  rewrite !lookup_delete_ne in H by done.
  destruct (d !! "texts") as [vt|] eqn:Ht; [|done]. simpl in H.
  destruct vt as [|texts]; [done|]. by exists texts.
Qed.

(** *** What every computation of the module leaves untouched *)

Lemma evolves_refl (P : event → Prop) (st : state) : evolves P st st.
Proof. split; [done|]. exists []. by rewrite app_nil_r. Qed.

Lemma evolves_trans (P : event → Prop) (st1 st2 st3 : state) :
  evolves P st1 st2 → evolves P st2 st3 → evolves P st1 st3.
Proof.
  intros [H1 (e1 & E1 & F1)] [H2 (e2 & E2 & F2)]. split; [auto|].
  exists (e1 ++ e2). split; [|by apply Forall_app_2].
  by rewrite E2, E1, <- (assoc_L (++)).
Qed.

Lemma evolves_same (P : event → Prop) (st st' : state) :
  validation_step_outputs st' = validation_step_outputs st →
  events st' = events st → evolves P st st'.
Proof.
  intros Hv He. split; [congruence|]. exists []. by rewrite app_nil_r.
Qed.

Lemma sound_bind (P : event → Prop) {A B} (m : M A) (f : A → M B) :
  sound P m → (∀ a, sound P (f a)) → sound P (m ≫= f).
Proof.
  intros Hm Hf st. unfold mbind, M_bind. specialize (Hm st).
  destruct (m st) as [[a|e] st1]; simpl in *; [|done].
  eapply evolves_trans; [done|apply Hf].
Qed.

Lemma sound_ret (P : event → Prop) {A} (a : A) : sound P (mret a).
Proof. intros st. apply evolves_refl. Qed.

Lemma sound_raise (P : event → Prop) {A} (e : exn) : sound P (raise (A:=A) e).
Proof. intros st. apply evolves_refl. Qed.

Lemma sound_lift (P : event → Prop) {A} (r : result A) : sound P (lift r).
Proof. intros st. apply evolves_refl. Qed.

Lemma sound_get_metrics (P : event → Prop) : sound P get_metrics.
Proof. intros st. apply evolves_refl. Qed.

Lemma sound_emit (P : event → Prop) (ev : event) : P ev → sound P (emit ev).
Proof.
  intros Hev st. split; [done|]. exists [ev]. split; [done|]. by constructor.
Qed.

Lemma sound_dict_pop (P : event → Prop) (b : nat) (key : string) :
  sound P (dict_pop b key).
Proof.
  intros st. unfold dict_pop. repeat case_match; by apply evolves_same.
Qed.

Lemma sound_alloc (P : event → Prop) (d : gmap string value) :
  sound P (alloc d).
Proof. intros st. by apply evolves_same. Qed.

Lemma sound_set_metrics (P : event → Prop) (m : metric_state) :
  sound P (set_metrics m).
Proof. intros st. by apply evolves_same. Qed.

Lemma sound_write_file (P : event → Prop) (path : string) (m : Model) :
  sound P (write_file path m).
Proof. intros st. by apply evolves_same. Qed.

Lemma sound_clear_outputs (P : event → Prop) :
  sound P (set_validation_step_outputs []).
Proof. intros st. split; [done|]. exists []. by rewrite app_nil_r. Qed.

Ltac sound_step :=
  first
    [ apply sound_ret | apply sound_raise | apply sound_lift
    | apply sound_get_metrics | apply sound_dict_pop | apply sound_alloc
    | apply sound_set_metrics | apply sound_write_file
    | apply sound_clear_outputs
    | apply sound_emit; simpl; by auto
    | apply sound_bind; [|intros ?]
    | case_decide | case_match ].

Lemma sound_shared_step (self : BenetechModule) (b : nat) (stage : string) :
  sound (generation_as_configured self) (_shared_step self b stage).
Proof.
  unfold _shared_step, _log, call_model, call_generate, call_batch_decode,
    call_metric.
  repeat sound_step.
Qed.

Lemma sound_run_call (self : BenetechModule) (c : call) :
  sound (generation_as_configured self) (run_call self c).
Proof.
  destruct c; unfold run_call, training_step, validation_step,
    on_validation_epoch_end, on_train_end, save_pretrained;
    repeat first [ apply sound_shared_step | sound_step ].
Qed.

Lemma sound_run_hooks (self : BenetechModule) (dm : BenetechDataModule)
    (hs : list hook) :
  sound (generation_as_configured self) (run_hooks self dm hs).
Proof.
  induction hs as [|h hs IH]; simpl; [apply sound_ret|].
  apply sound_bind; [|intros ?; apply IH].
  destruct h; unfold run_hook, train_dataloader, val_dataloader, load_batch,
    training_step, validation_step, on_validation_epoch_end;
    repeat first [ apply sound_shared_step | sound_step ].
Qed.

Lemma sound_fit (trainer : Trainer) (self : BenetechModule)
    (dm : BenetechDataModule) :
  sound (generation_as_configured self) (fit trainer self dm).
Proof.
  unfold fit, setup, _dataset, on_train_end, save_pretrained.
  repeat first [ apply sound_run_hooks | sound_step ].
Qed.

Lemma init_outputs_empty (hp : HParams) (p : Processor)
    (self : BenetechModule) (st st0 : state) :
  BenetechModule_init hp p st = (Ok self, st0) →
  validation_step_outputs st0 = [].
Proof.
  unfold BenetechModule_init, _init_model, mbind, M_bind.
  case_decide; simpl; [|done]. by intros [= <- <-].
Qed.

(** *** The training and validation steps *)

(** C3: a training step on a batch returns the loss of the forward pass
    and logs it as "train_loss" with the batch size, the number of labels
    in the batch, as its weight; the step makes no other call. *)
Theorem training_step_logs_train_loss (self : BenetechModule) (b : nat)
    (stage : string) (st : state) (d : gmap string value)
    (labels fp am : tensor) (texts : list string) (n : nat) :
  heap st !! b = Some d → is_batch d labels fp am texts n →
  let loss := forward (model self) fp am labels in
  ∃ st',
    training_step self b stage st = (Ok (Some loss), st') ∧
    new_events st st' = [ModelForward fp am labels;
                         Log "train_loss" loss None n].
Proof.
  intros Hb [Ht _] loss. unfold training_step.
  rewrite (shared_step_other self b "train" st d labels fp am n) by done.
  eexists. split; [reflexivity|].
  unfold new_events. simpl. by rewrite drop_app_length.
Qed.

(** C6: on a batch, the validation step hands [None] back to its caller,
    its loss logging, generation, decoding and scoring being side effects
    only, whereas the training step on the same batch returns the loss;
    a validation step never returns anything else. *)
Theorem validation_step_returns_nothing (self : BenetechModule) (b idx : nat)
    (stage : string) (st : state) (d : gmap string value)
    (labels fp am : tensor) (texts : list string) (n : nat) :
  heap st !! b = Some d → is_batch d labels fp am texts n →
  let loss := forward (model self) fp am labels in
  let kw := generation_kwargs self fp am in
  let ids := generate (model self) kw in
  let predictions := batch_decode (tokenizer (processor self)) ids true in
  let m := metric_update (metrics st) texts predictions in
  (∃ st',
     validation_step self b idx st = (Ok None, st') ∧
     metrics st' = m ∧
     new_events st st' =
       [ModelForward fp am labels;
        Log "valid_loss" loss None n;
        ModelGenerate kw;
        BatchDecode ids true;
        MetricUpdate texts predictions;
        Log "benetech_score" (metric_compute m) (Some true) n]) ∧
  (∃ st', training_step self b stage st = (Ok (Some loss), st')) ∧
  (∀ b' idx' st1 r st2,
     validation_step self b' idx' st1 = (Ok r, st2) → r = None).
Proof.
  intros Hb Hd loss kw ids predictions m. split; [|split].
  - unfold validation_step, mbind, M_bind.
    rewrite (shared_step_valid self b st d labels fp am texts n) by done.
    eexists. split; [reflexivity|]. split; [done|].
    unfold new_events. simpl. by rewrite drop_app_length.
  - unfold training_step. destruct Hd as [Ht _].
    rewrite (shared_step_other self b "train" st d labels fp am n) by done.
    by eexists.
  - intros b' idx' st1 r st2. unfold validation_step, mbind, M_bind.
    destruct (_shared_step self b' "valid" st1) as [[?|?] ?];
      unfold mret, M_ret; intros [=]; done.
Qed.

(** C7: whatever the state, every [generate] call a validation step makes
    is bounded by [max_new_tokens = max_length], stops early and carries
    the tokenizer's end-of-sequence and padding ids; on a batch the step
    makes exactly one such call. *)
Theorem validation_generation_is_configured (self : BenetechModule)
    (b idx : nat) (st : state) :
  Forall (generation_as_configured self)
         (new_events st (validation_step self b idx st).2) ∧
  (∀ d labels fp am texts n,
     heap st !! b = Some d → is_batch d labels fp am texts n →
     filter is_generate (new_events st (validation_step self b idx st).2)
       = [ModelGenerate
            {| gen_flattened_patches := fp;
               gen_attention_mask := am;
               max_new_tokens := hp_max_length (hparams self);
               early_stopping := true;
               use_cache := true;
               gen_eos_token_id := eos_token_id (tokenizer (processor self));
               gen_pad_token_id := pad_token_id (tokenizer (processor self)) |}]).
Proof.
  split.
  - destruct (sound_run_call self (ValidationStep b idx) st) as [_ (evs & He & Hall)].
    unfold new_events. simpl in He.
    assert (Hst : events (validation_step self b idx st).2 = events st ++ evs).
    { rewrite <- He. unfold mbind, M_bind.
      destruct (validation_step self b idx st) as [[?|?] ?]; done. }
    by rewrite Hst, drop_app_length.
  - intros d labels fp am texts n Hb Hd.
    unfold validation_step, mbind, M_bind.
    rewrite (shared_step_valid self b st d labels fp am texts n) by done.
    unfold new_events. simpl. by rewrite drop_app_length.
Qed.

(** C10: the shared step works on the caller's dictionary itself.  A
    training step that returns leaves it without "labels",
    "flattened_patches" and "attention_mask"; a validation step that
    returns has removed "texts" as well; either way the caller does not
    find the batch it passed.  On a batch as the collator builds it both
    steps do return. *)
Theorem shared_step_consumes_batch (self : BenetechModule) (b : nat)
    (st : state) (d : gmap string value) :
  heap st !! b = Some d →
  (∀ stage r st',
     training_step self b stage st = (Ok r, st') →
     ∃ d', heap st' !! b = Some d' ∧
           d' = popped d ∧
           d' !! "labels" = None ∧ d' !! "flattened_patches" = None ∧
           d' !! "attention_mask" = None ∧
           d' !! "texts" = d !! "texts" ∧ d' ≠ d) ∧
  (∀ idx r st',
     validation_step self b idx st = (Ok r, st') →
     ∃ d', heap st' !! b = Some d' ∧
           d' = delete "texts" (popped d) ∧
           d' !! "labels" = None ∧ d' !! "flattened_patches" = None ∧
           d' !! "attention_mask" = None ∧ d' !! "texts" = None ∧ d' ≠ d) ∧
  (∀ labels fp am texts n stage idx,
     is_batch d labels fp am texts n →
     (∃ r st', training_step self b stage st = (Ok r, st')) ∧
     (∃ r st', validation_step self b idx st = (Ok r, st'))).
Proof.
  intros Hb. split; [|split].
  - intros stage r st' H. unfold training_step in H.
    destruct (shared_step_ok_inv _ _ _ _ _ _ H)
      as (d0 & labels & fp & am & n & Hb0 & Hd & _).
    assert (d0 = d) as -> by congruence.
    rewrite (shared_step_other self b "train" st d labels fp am n) in H by done.
    injection H as _ <-. simpl. rewrite lookup_insert_eq.
    eexists. split; [reflexivity|]. split; [done|]. unfold popped.
    rewrite lookup_delete_ne, lookup_delete_ne, lookup_delete_eq by done.
    rewrite lookup_delete_ne, lookup_delete_eq by done.
    rewrite lookup_delete_eq, !lookup_delete_ne by done.
    repeat (split; [done|]).
    intros Heq. destruct Hd as [Hl _ _ _]. rewrite <- Heq in Hl.
    by rewrite !lookup_delete_ne, lookup_delete_eq in Hl by done.
  - intros idx r st' H. unfold validation_step, mbind, M_bind in H.
    destruct (_shared_step self b "valid" st) as [[r0|e] st1] eqn:Hs; [|done].
    injection H as _ <-.
    destruct (shared_step_ok_inv _ _ _ _ _ _ Hs)
      as (d0 & labels & fp & am & n & Hb0 & Hd & Ht).
    assert (d0 = d) as -> by congruence.
    destruct (Ht eq_refl) as [texts Htexts].
    rewrite (shared_step_valid self b st d labels fp am texts n) in Hs by done.
    injection Hs as _ <-. simpl. rewrite lookup_insert_eq.
    eexists. split; [reflexivity|]. split; [done|]. unfold popped.
    rewrite !(lookup_delete_ne _ "texts") by done.
    rewrite lookup_delete_ne, lookup_delete_ne, lookup_delete_eq by done.
    rewrite lookup_delete_ne, lookup_delete_eq by done.
    rewrite !lookup_delete_eq.
    repeat (split; [done|]).
    intros Heq. rewrite <- Heq in Htexts. by rewrite lookup_delete_eq in Htexts.
  - intros labels fp am texts n stage idx Hd. split.
    + unfold training_step. destruct Hd as [Ht _].
      rewrite (shared_step_other self b "train" st d labels fp am n) by done.
      by eexists _, _.
    + unfold validation_step, mbind, M_bind.
      rewrite (shared_step_valid self b st d labels fp am texts n) by done.
      by eexists _, _.
Qed.

(** *** Construction, saving and the epoch-end hook *)

(** C4: with a [model_path] other than "google/deplot", constructing the
    module raises [ValueError] at once, leaving the state as it was; the
    training driver then stops with that error after seeding, loading the
    processor and setting up the logger, without a single [load_dataset]
    call. *)
Theorem unsupported_model_path_raises :
  (∀ hp p st,
     hp_model_path hp ≠ "google/deplot" →
     BenetechModule_init hp p st
       = (Raise (ValueError (hp_model_path hp +:+ " is not a valid model")),
          st)) ∧
  (∀ config st,
     Cli.model_path config ≠ "google/deplot" →
     ∃ st',
       train config st
         = (Raise (ValueError
                     (Cli.model_path config +:+ " is not a valid model")),
            st') ∧
       new_events st st'
         = [SeedEverything (Cli.seed config) true;
            ProcessorFromPretrained (Cli.processor_path config);
            LoadLoggerAndCallbacks] ∧
       existsb is_load_dataset (new_events st st') = false).
Proof.
  split.
  - intros hp p st Hne.
    unfold BenetechModule_init, _init_model, mbind, M_bind.
    by rewrite decide_False.
  - intros config st Hne.
    unfold train, BenetechDataModule_init, BenetechModule_init, _init_model,
      mbind, M_bind. simpl.
    rewrite decide_False by done. simpl.
    eexists. split; [reflexivity|].
    unfold new_events. simpl.
    rewrite <- !(assoc_L (++)), drop_app_length. done.
Qed.

(** C5: [on_train_end] writes the model to
    [model_save_dir ++ run_name ++ ".pt"] when [save_model] is true and
    touches nothing when it is false; so a path that held no artifact
    before holds one afterwards exactly when the flag is true. *)
Theorem on_train_end_saves_iff_flag (self : BenetechModule) (st : state) :
  let hp := hparams self in
  let path := hp_model_save_dir hp +:+ py_str (hp_run_name hp) +:+ ".pt" in
  ∃ st',
    on_train_end self st = (Ok (), st') ∧
    (hp_save_model hp = true →
       files st' = <[path := model self]> (files st) ∧
       new_events st st' = [SavePretrained path]) ∧
    (hp_save_model hp = false → st' = st) ∧
    (files st !! path = None →
       (is_Some (files st' !! path) ↔ hp_save_model hp = true)).
Proof.
  intros hp path. unfold on_train_end, save_pretrained, save_path.
  fold hp. fold path. destruct (hp_save_model hp) eqn:Hflag.
  - eexists. split; [reflexivity|]. simpl. split; [|split].
    + intros _. split; [done|]. unfold new_events. simpl.
      by rewrite drop_app_length.
    + done.
    + intros _. rewrite lookup_insert_eq. split; [done|by eexists].
  - exists st. split; [done|]. split; [done|]. split; [done|].
    intros ->. split; [by intros [? ?]|done].
Qed.

(** C9: [validation_step_outputs] is empty once the module is constructed
    and in every state a run reaches from there by training steps,
    validation steps, epoch-end and train-end hooks, finished or failed;
    [on_validation_epoch_end] therefore always clears an empty container
    and leaves the state as it found it.  A whole [fit] ends with the
    container empty as well. *)
Theorem validation_step_outputs_always_empty (hp : HParams) (p : Processor)
    (self : BenetechModule) (st st0 : state) :
  BenetechModule_init hp p st = (Ok self, st0) →
  validation_step_outputs st0 = [] ∧
  ∀ st', reachable self st0 st' →
    validation_step_outputs st' = [] ∧
    (∀ c, validation_step_outputs (run_call self c st').2 = []) ∧
    (∀ trainer dm,
       validation_step_outputs (fit trainer self dm st').2 = []) ∧
    on_validation_epoch_end self st' = (Ok (), st').
Proof.
  intros Hinit. pose proof (init_outputs_empty _ _ _ _ _ Hinit) as H0.
  split; [done|]. intros st' Hreach.
  assert (Hempty : validation_step_outputs st' = []).
  { induction Hreach as [|st1 c _ IH|st1 d1 _ IH]; [done| |done].
    by apply (sound_run_call self c st1). }
  split; [done|]. split; [|split].
  - intros c. by apply (sound_run_call self c st').
  - intros trainer dm. by apply (sound_fit trainer self dm st').
  - unfold on_validation_epoch_end, set_validation_step_outputs.
    destruct st'. simpl in *. by subst.
Qed.

(** *** The dataset adapter and the collator, beyond the claims *)

Lemma stack_ok_inv (ts : list tensor) (t : tensor) :
  stack ts = Ok t →
  ts ≠ [] ∧ ∀ u u', u ∈ ts → u' ∈ ts → shape u = shape u'.
Proof.
  destruct ts as [|t0 rest]; [done|]. unfold stack.
  case_bool_decide as Hall; [|done]. intros _. split; [done|].
  assert (Hhead : ∀ u, u ∈ t0 :: rest → shape u = shape t0).
  { intros u [->|Hu]%elem_of_cons; [done|].
    rewrite Forall_forall in Hall. by apply Hall. }
  intros u u' Hu Hu'. by rewrite (Hhead u), (Hhead u').
Qed.

Lemma stack_uniform (ts : list tensor) :
  ts ≠ [] → (∀ u u', u ∈ ts → u' ∈ ts → shape u = shape u') →
  ∃ t, stack ts = Ok t.
Proof.
  intros Hne Huni. destruct ts as [|t0 rest] eqn:Hts; [done|].
  rewrite <- Hts in *. eexists.
  apply (stack_same_shape ts (shape t0)); [done|].
  apply Forall_forall. intros u Hu. apply Huni; [done|]. rewrite Hts. left.
Qed.

Lemma stack_not_uniform (ts : list tensor) :
  ts ≠ [] → ¬ (∀ u u', u ∈ ts → u' ∈ ts → shape u = shape u') →
  stack ts = Raise (RuntimeError "stack expects each tensor to be equal size").
Proof.
  intros Hne Hnot. destruct ts as [|t0 rest]; [done|]. unfold stack.
  case_bool_decide as Hall; [|done]. exfalso. apply Hnot.
  assert (Hhead : ∀ u, u ∈ t0 :: rest → shape u = shape t0).
  { intros u [->|Hu]%elem_of_cons; [done|].
    rewrite Forall_forall in Hall. by apply Hall. }
  intros u u' Hu Hu'. by rewrite (Hhead u), (Hhead u').
Qed.

Lemma stack_nonempty_cases (ts : list tensor) :
  ts ≠ [] →
  (∃ t, stack ts = Ok t) ∨
  stack ts = Raise (RuntimeError "stack expects each tensor to be equal size").
Proof.
  intros Hne. destruct ts as [|t0 rest]; [done|]. unfold stack.
  case_bool_decide; [left; by eexists|by right].
Qed.

Lemma uniform_fmap {A} (f : A → tensor) (l : list A) :
  (∀ u u', u ∈ f <$> l → u' ∈ f <$> l → shape u = shape u') ↔
  (∀ s s', s ∈ l → s' ∈ l → shape (f s) = shape (f s')).
Proof.
  split.
  - intros H s s' Hs Hs'. apply H; by apply list_elem_of_fmap_2.
  - intros H u u' (s & -> & Hs)%list_elem_of_fmap (s' & -> & Hs')%list_elem_of_fmap.
    by apply H.
Qed.

Lemma getitem_encodes (self : ImageCaptioningDataset) (idx : nat)
    (s : encoding) :
  getitem self idx = Ok s →
  ∃ item, dataset self !! idx = Some item ∧
          s = encode_item (ds_processor self) (ds_max_patches self) item.
Proof.
  unfold getitem. destruct (dataset self !! idx) as [item|]; [|done].
  intros [= <-]. by exists item.
Qed.

(** X1: [__getitem__] answers exactly the indices below [__len__]; the
    sample carries the text of the dataset's item unchanged, and an index
    at or beyond the length is an [IndexError]. *)
Theorem getitem_bounds (self : ImageCaptioningDataset) (idx : nat) :
  (idx < dataset_len self ↔ ∃ s, getitem self idx = Ok s) ∧
  (∀ s, getitem self idx = Ok s →
        Some (text s) = snd <$> dataset self !! idx) ∧
  (dataset_len self ≤ idx ↔ getitem self idx = Raise IndexError).
Proof.
  unfold getitem, dataset_len. split; [|split].
  - rewrite <- lookup_lt_is_Some. split.
    + intros [item ->]. by eexists.
    + intros [s Hs]. destruct (dataset self !! idx); [by eexists|done].
  - intros s. destruct (dataset self !! idx) as [item|]; [|done].
    by intros [= <-].
  - rewrite <- lookup_ge_None. split.
    + by intros ->.
    + by destruct (dataset self !! idx).
Qed.

(** X2: the shapes [__getitem__] hands out.  With more than one patch the
    sample has patches of shape [[max_patches; patch_dim]] and a mask of
    shape [[max_patches]]; with [max_patches = 1] the [squeeze()] drops the
    patch dimension too, leaving [[patch_dim]] and a 0-d mask. *)
Theorem getitem_shapes (self : ImageCaptioningDataset) (idx : nat)
    (s : encoding) :
  processor_shapes (ds_processor self) → (0 < ds_max_patches self)%Z →
  1 < patch_dim →
  getitem self idx = Ok s →
  let n := Z.to_nat (ds_max_patches self) in
  (1 < n → shape (flattened_patches s) = [n; patch_dim] ∧
           shape (attention_mask s) = [n]) ∧
  (n = 1 → shape (flattened_patches s) = [patch_dim] ∧
           shape (attention_mask s) = [] ∧
           len (attention_mask s) = Raise (TypeError "len() of a 0-d tensor")).
Proof.
  intros Hp Hmp HD Hget n.
  destruct (getitem_encodes _ _ _ Hget) as (item & _ & ->).
  unfold len. simpl.
  destruct (Hp item.1 (ds_max_patches self) Hmp) as [-> ->]. fold n.
  rewrite !filter_cons, !filter_nil.
  split; intros Hn; repeat case_decide; try lia; done.
Qed.

(** X3: samples taken from one dataset always collate: whatever indices
    the loader picks, as long as there is at least one, the collator
    returns a batch, and its texts are the dataset's texts at those
    indices, in order. *)
Theorem dataset_samples_collate (ds : ImageCaptioningDataset)
    (max_length : nat) (idxs : list nat) (samples : list encoding) :
  processor_shapes (ds_processor ds) → (0 < ds_max_patches ds)%Z →
  idxs ≠ [] →
  Forall2 (λ i s, getitem ds i = Ok s) idxs samples →
  ∃ b, collator (ds_processor ds) max_length samples = Ok b ∧
       b !! "texts" = Some (VTexts (text <$> samples)) ∧
       Forall2 (λ i t, snd <$> dataset ds !! i = Some t)
               idxs (text <$> samples).
Proof.
  intros Hp Hmp Hne Hall.
  assert (Hsamples : samples ≠ []).
  { intros ->. by apply Forall2_nil_inv_r in Hall. }
  assert (Henc : ∀ s, s ∈ samples →
            ∃ item, s = encode_item (ds_processor ds) (ds_max_patches ds) item).
  { intros s Hs.
    destruct (proj1 (list_elem_of_lookup samples s) Hs) as [k Hk].
    destruct (Forall2_lookup_r _ _ _ _ _ Hall Hk) as (i & _ & Hget).
    destruct (getitem_encodes _ _ _ Hget) as (item & _ & ->). by exists item. }
  assert (Hfp : ∀ s s', s ∈ samples → s' ∈ samples →
            shape (flattened_patches s) = shape (flattened_patches s')).
  { intros s s' [item ->]%Henc [item' ->]%Henc. simpl.
    destruct (Hp item.1 _ Hmp) as [-> _].
    by destruct (Hp item'.1 _ Hmp) as [-> _]. }
  assert (Ham : ∀ s s', s ∈ samples → s' ∈ samples →
            shape (attention_mask s) = shape (attention_mask s')).
  { intros s s' [item ->]%Henc [item' ->]%Henc. simpl.
    destruct (Hp item.1 _ Hmp) as [_ ->].
    by destruct (Hp item'.1 _ Hmp) as [_ ->]. }
  destruct (stack_uniform (flattened_patches <$> samples)) as [fp Hsfp].
  { by destruct samples. } { by apply uniform_fmap. }
  destruct (stack_uniform (attention_mask <$> samples)) as [am Hsam].
  { by destruct samples. } { by apply uniform_fmap. }
  unfold collator. rewrite Hsfp, Hsam. simpl. eexists. split; [done|].
  split; [by rewrite !lookup_insert_ne, lookup_insert_eq by done|].
  apply Forall2_fmap_r. eapply Forall2_impl; [exact Hall|].
  intros i s Hget. simpl. destruct (getitem_encodes _ _ _ Hget) as (item & -> & ->).
  done.
Qed.

(** X4: the collator returns a batch exactly when the list of samples is
    non-empty and both the patch tensors and the mask tensors share one
    shape; an empty list never collates, and a non-empty list with a stray
    shape ends in the [RuntimeError] of [torch.stack]. *)
Theorem collator_succeeds_iff (p : Processor) (max_length : nat)
    (batch : list encoding) :
  ((∃ b, collator p max_length batch = Ok b) ↔
     batch ≠ [] ∧ same_patch_shape batch ∧ same_mask_shape batch) ∧
  (∀ b, collator p max_length [] ≠ Ok b) ∧
  (batch ≠ [] → ¬ (same_patch_shape batch ∧ same_mask_shape batch) →
   collator p max_length batch
     = Raise (RuntimeError "stack expects each tensor to be equal size")).
Proof.
  assert (Hne : ∀ f : encoding → tensor, batch ≠ [] → f <$> batch ≠ []).
  { intros f H. by destruct batch. }
  unfold same_patch_shape, same_mask_shape. split; [|split].
  - split.
    + intros [b Hb]. unfold collator in Hb.
      destruct (stack (flattened_patches <$> batch)) as [fp|] eqn:Hfp; [|done].
      destruct (stack (attention_mask <$> batch)) as [am|] eqn:Ham; [|done].
      apply stack_ok_inv in Hfp as [Hnil Hfp].
      apply stack_ok_inv in Ham as [_ Ham].
      split; [by destruct batch|]. split; by apply uniform_fmap.
    + intros (Hnil & Hfp & Ham).
      destruct (stack_uniform (flattened_patches <$> batch)) as [fp Hsfp];
        [by apply Hne|by apply uniform_fmap|].
      destruct (stack_uniform (attention_mask <$> batch)) as [am Hsam];
        [by apply Hne|by apply uniform_fmap|].
      unfold collator. rewrite Hsfp, Hsam. by eexists.
  - done.
  - intros Hnil Hnot. unfold collator.
    destruct (stack (flattened_patches <$> batch)) as [fp|e] eqn:Hfp.
    + rewrite stack_not_uniform; [done|by apply Hne|].
      intros Ham. apply Hnot. apply stack_ok_inv in Hfp as [_ Hfp].
      split; by apply uniform_fmap.
    + simpl.
      destruct (stack_nonempty_cases (flattened_patches <$> batch))
        as [[fp Hsfp]|Hsfp]; [by apply Hne|congruence|congruence].
Qed.

(** *** The steps, beyond the claims *)

Lemma new_events_app (st st' : state) (evs : list event) :
  events st' = events st ++ evs → new_events st st' = evs.
Proof. intros H. unfold new_events. by rewrite H, drop_app_length. Qed.

Lemma new_events_same (st st' : state) :
  events st' = events st → new_events st st' = [].
Proof. intros H. apply new_events_app. by rewrite app_nil_r. Qed.

Lemma shared_step_no_labels (self : BenetechModule) (b : nat)
    (stage : string) (st : state) (d : gmap string value) :
  heap st !! b = Some d → d !! "labels" = None →
  _shared_step self b stage st = (Raise (KeyError "labels"), st).
Proof.
  intros Hb Hl. unfold _shared_step, dict_pop, mbind, M_bind.
  by rewrite Hb, Hl.
Qed.

Lemma collator_popped (p : Processor) (max_length : nat)
    (batch : list encoding) (d : gmap string value) :
  collator p max_length batch = Ok d →
  popped d = {[ "texts" := VTexts (text <$> batch) ]}.
Proof.
  unfold collator. intros H.
  destruct (stack (flattened_patches <$> batch)) as [fp|]; [|done].
  destruct (stack (attention_mask <$> batch)) as [am|]; [|done].
  simpl in H. injection H as <-. unfold popped.
  rewrite !(delete_insert_ne _ "labels") by done.
  rewrite delete_insert_eq, delete_empty.
  rewrite (delete_insert_ne _ "flattened_patches") by done.
  rewrite delete_insert_eq, delete_insert_eq.
  rewrite delete_insert_ne, delete_empty, insert_empty by done. done.
Qed.

(** X5: what is left of a collated batch.  After a training step the
    caller's dictionary holds the raw texts and nothing else; after a
    validation step it is empty.  Both steps return on a collated batch. *)
Theorem collated_batch_after_steps (p : Processor) (max_length : nat)
    (batch : list encoding) (d : gmap string value) (self : BenetechModule)
    (b : nat) (st : state) (stage : string) (idx : nat) :
  collator p max_length batch = Ok d → heap st !! b = Some d →
  (∃ r st',
     training_step self b stage st = (Ok r, st') ∧
     heap st' !! b = Some {[ "texts" := VTexts (text <$> batch) ]}) ∧
  (∃ st',
     validation_step self b idx st = (Ok None, st') ∧
     heap st' !! b = Some ∅).
Proof.
  intros Hcol Hb.
  destruct (collator_is_batch _ _ _ _ Hcol) as (labels & fp & am & Hd).
  pose proof (collator_popped _ _ _ _ Hcol) as Hpop. split.
  - unfold training_step. destruct Hd as [Ht _].
    rewrite (shared_step_other self b "train" st d labels fp am _) by done.
    eexists _, _. split; [done|]. simpl. by rewrite lookup_insert_eq, Hpop.
  - unfold validation_step, mbind, M_bind.
    rewrite (shared_step_valid self b st d labels fp am _ _) by done.
    eexists. split; [done|]. simpl.
    by rewrite lookup_insert_eq, Hpop, delete_singleton_eq.
Qed.

(** X6: a dictionary that lacks one of the three tensors.  Without
    "labels" the step raises [KeyError] and changes nothing; without
    "flattened_patches" it raises after "labels" has already left the
    caller's dictionary; without "attention_mask" both earlier entries are
    gone.  In no case has the model been called. *)
Theorem shared_step_missing_key (self : BenetechModule) (b : nat)
    (stage : string) (st : state) (d : gmap string value) :
  heap st !! b = Some d →
  (d !! "labels" = None →
     _shared_step self b stage st = (Raise (KeyError "labels"), st)) ∧
  (is_Some (d !! "labels") → d !! "flattened_patches" = None →
     ∃ st',
       _shared_step self b stage st
         = (Raise (KeyError "flattened_patches"), st') ∧
       heap st' !! b = Some (delete "labels" d) ∧
       events st' = events st) ∧
  (is_Some (d !! "labels") → is_Some (d !! "flattened_patches") →
   d !! "attention_mask" = None →
     ∃ st',
       _shared_step self b stage st
         = (Raise (KeyError "attention_mask"), st') ∧
       heap st' !! b = Some (delete "flattened_patches" (delete "labels" d)) ∧
       events st' = events st).
Proof.
  intros Hb. split; [|split].
  - by apply shared_step_no_labels.
  - intros [vl Hl] Hf. unfold _shared_step, dict_pop, mbind, M_bind.
    rewrite Hb, Hl. simpl. rewrite lookup_insert_eq.
    rewrite lookup_delete_ne, Hf by done.
    eexists. split; [done|]. simpl. by rewrite lookup_insert_eq.
  - intros [vl Hl] [vf Hf] Ha. unfold _shared_step, dict_pop, mbind, M_bind.
    rewrite Hb, Hl. simpl. rewrite lookup_insert_eq.
    rewrite lookup_delete_ne, Hf by done. simpl. rewrite lookup_insert_eq.
    rewrite !lookup_delete_ne, Ha by done.
    eexists. split; [done|]. simpl. by rewrite lookup_insert_eq.
Qed.

(** X7: a validation step on a dictionary that holds the three tensors
    but no "texts" raises [KeyError] only after the loss was logged and
    the model generated and decoded: the metric is not updated and no
    score is logged, and the three tensors are gone. *)
Theorem validation_step_without_texts (self : BenetechModule) (b idx : nat)
    (st : state) (d : gmap string value) (labels fp am : tensor) (n : nat) :
  heap st !! b = Some d → has_tensors d labels fp am n →
  d !! "texts" = None →
  let loss := forward (model self) fp am labels in
  let kw := generation_kwargs self fp am in
  let ids := generate (model self) kw in
  ∃ st',
    validation_step self b idx st = (Raise (KeyError "texts"), st') ∧
    new_events st st' = [ModelForward fp am labels;
                         Log "valid_loss" loss None n;
                         ModelGenerate kw;
                         BatchDecode ids true] ∧
    metrics st' = metrics st ∧
    heap st' !! b = Some (popped d).
Proof.
  intros Hb [Hl Hf Ha Hn] Ht loss kw ids.
  unfold len in Hn. destruct (shape labels) as [|n' sh] eqn:Hsh; [done|].
  injection Hn as ->.
  unfold validation_step, _shared_step, dict_pop, mbind, M_bind. simpl.
  rewrite Hb, Hl. simpl. rewrite lookup_insert_eq.
  rewrite lookup_delete_ne, Hf by done. simpl. rewrite lookup_insert_eq.
  rewrite !lookup_delete_ne, Ha by done. simpl.
  unfold lift, len. rewrite Hsh. simpl. rewrite lookup_insert_eq.
  rewrite !lookup_delete_ne, Ht by done.
  eexists. split; [done|]. simpl. split; [|split; [done|]].
  - apply new_events_app. simpl. by rewrite <- !(assoc_L (++)).
  - by rewrite lookup_insert_eq.
Qed.

(** X8: a batch serves one step.  Once a training or validation step has
    returned, any further step on the same dictionary raises
    [KeyError "labels"] and leaves the state as it is. *)
Theorem batch_serves_one_step (self : BenetechModule) (b idx : nat)
    (stage : string) (st st1 : state) (r : option scalar) :
  training_step self b stage st = (Ok r, st1) ∨
  validation_step self b idx st = (Ok r, st1) →
  ∀ stage' idx',
    training_step self b stage' st1 = (Raise (KeyError "labels"), st1) ∧
    validation_step self b idx' st1 = (Raise (KeyError "labels"), st1).
Proof.
  intros Hstep.
  assert (Hgone : ∃ d', heap st1 !! b = Some d' ∧ d' !! "labels" = None).
  { destruct Hstep as [H|H].
    - unfold training_step in H.
      destruct (shared_step_ok_inv _ _ _ _ _ _ H)
        as (d & labels & fp & am & n & Hb & Hd & _).
      rewrite (shared_step_other self b "train" st d labels fp am n) in H
        by done.
      injection H as _ <-. simpl. rewrite lookup_insert_eq. eexists.
      split; [done|]. unfold popped.
      by rewrite !lookup_delete_ne, lookup_delete_eq by done.
    - unfold validation_step, mbind, M_bind in H.
      destruct (_shared_step self b "valid" st) as [[r0|e] st2] eqn:Hs; [|done].
      injection H as _ <-.
      destruct (shared_step_ok_inv _ _ _ _ _ _ Hs)
        as (d & labels & fp & am & n & Hb & Hd & Ht).
      destruct (Ht eq_refl) as [texts Htexts].
      rewrite (shared_step_valid self b st d labels fp am texts n) in Hs
        by done.
      injection Hs as _ <-. simpl. rewrite lookup_insert_eq. eexists.
      split; [done|]. unfold popped.
      by rewrite !lookup_delete_ne, lookup_delete_eq by done. }
  destruct Hgone as (d' & Hb' & Hl'). intros stage' idx'. split.
  - unfold training_step. by apply (shared_step_no_labels _ _ _ _ d').
  - unfold validation_step, mbind, M_bind.
    by rewrite (shared_step_no_labels _ _ _ _ d').
Qed.

(** *** Footprints *)

Lemma respects_bind (R : state → state → Prop) {A B} (m : M A)
    (f : A → M B) :
  (∀ x y z, R x y → R y z → R x z) →
  respects R m → (∀ a, respects R (f a)) → respects R (m ≫= f).
Proof.
  intros Htrans Hm Hf st. unfold mbind, M_bind. specialize (Hm st).
  destruct (m st) as [[a|e] st1]; simpl in *; [|done].
  eapply Htrans; [done|apply Hf].
Qed.

Lemma respects_ret (R : state → state → Prop) {A} (a : A) :
  (∀ x, R x x) → respects R (mret a).
Proof. intros Hrefl st. apply Hrefl. Qed.

Lemma respects_raise (R : state → state → Prop) {A} (e : exn) :
  (∀ x, R x x) → respects R (raise (A:=A) e).
Proof. intros Hrefl st. apply Hrefl. Qed.

Lemma respects_lift (R : state → state → Prop) {A} (r : result A) :
  (∀ x, R x x) → respects R (lift r).
Proof. intros Hrefl st. apply Hrefl. Qed.

Lemma respects_get_metrics (R : state → state → Prop) :
  (∀ x, R x x) → respects R get_metrics.
Proof. intros Hrefl st. apply Hrefl. Qed.



Lemma keeps_metrics_refl (st : state) : keeps_metrics st st.
Proof. done. Qed.

Lemma keeps_metrics_trans (x y z : state) :
  keeps_metrics x y → keeps_metrics y z → keeps_metrics x z.
Proof. unfold keeps_metrics. congruence. Qed.

Lemma touches_only_refl (b : nat) (st : state) : touches_only b st st.
Proof. repeat split; try done. intros d Hd. by exists d. Qed.

Lemma touches_only_trans (b : nat) (x y z : state) :
  touches_only b x y → touches_only b y z → touches_only b x z.
Proof.
  intros (F1 & V1 & O1 & N1 & S1) (F2 & V2 & O2 & N2 & S2).
  split; [congruence|]. split; [congruence|]. split; [|split].
  - intros b' Hb'. by rewrite O2, O1.
  - auto.
  - intros d Hd. destruct (S1 d Hd) as (d1 & Hd1 & Hsub1).
    destruct (S2 d1 Hd1) as (d2 & Hd2 & Hsub2).
    exists d2. split; [done|]. by etrans.
Qed.

Lemma touches_only_same (b : nat) (st st' : state) :
  heap st' = heap st → files st' = files st →
  validation_step_outputs st' = validation_step_outputs st →
  touches_only b st st'.
Proof.
  intros Hh Hf Hv. unfold touches_only. rewrite Hh.
  repeat split; try done. intros d Hd. by exists d.
Qed.

Lemma touches_only_dict_pop (b : nat) (key : string) :
  respects (touches_only b) (dict_pop b key).
Proof.
  intros st. unfold dict_pop.
  destruct (heap st !! b) as [d|] eqn:Hb; [|apply touches_only_refl].
  destruct (d !! key) as [v|]; [|apply touches_only_refl].
  unfold touches_only. simpl.
  split; [done|]. split; [done|]. split; [|split].
  - intros b' Hb'. by rewrite lookup_insert_ne.
  - congruence.
  - intros d0 Hd0. assert (d0 = d) as -> by congruence.
    exists (delete key d).
    split; [by rewrite lookup_insert_eq|apply delete_subseteq].
Qed.

Lemma touches_only_emit (b : nat) (ev : event) :
  respects (touches_only b) (emit ev).
Proof. intros st. by apply touches_only_same. Qed.

Lemma touches_only_set_metrics (b : nat) (m : metric_state) :
  respects (touches_only b) (set_metrics m).
Proof. intros st. by apply touches_only_same. Qed.

Lemma keeps_metrics_dict_pop (b : nat) (key : string) :
  respects keeps_metrics (dict_pop b key).
Proof. intros st. unfold dict_pop. by repeat case_match. Qed.

Lemma keeps_metrics_emit (ev : event) : respects keeps_metrics (emit ev).
Proof. by intros st. Qed.

Lemma keeps_files_dict_pop (b : nat) (key : string) :
  respects keeps_files (dict_pop b key).
Proof. intros st. unfold dict_pop. by repeat case_match. Qed.

Lemma keeps_files_emit (ev : event) : respects keeps_files (emit ev).
Proof. by intros st. Qed.

Lemma keeps_files_alloc (d : gmap string value) :
  respects keeps_files (alloc d).
Proof. by intros st. Qed.

Lemma keeps_files_set_metrics (m : metric_state) :
  respects keeps_files (set_metrics m).
Proof. by intros st. Qed.

Lemma keeps_files_set_outputs (l : list value) :
  respects keeps_files (set_validation_step_outputs l).
Proof. by intros st. Qed.

Ltac respects_step Hrefl Htrans :=
  first
    [ apply respects_ret; exact Hrefl
    | apply respects_raise; exact Hrefl
    | apply respects_lift; exact Hrefl
    | apply respects_get_metrics; exact Hrefl
    | apply touches_only_dict_pop | apply touches_only_emit
    | apply touches_only_set_metrics
    | apply keeps_metrics_dict_pop | apply keeps_metrics_emit
    | apply keeps_files_dict_pop | apply keeps_files_emit
    | apply keeps_files_alloc | apply keeps_files_set_metrics
    | apply keeps_files_set_outputs
    | apply respects_bind; [exact Htrans| |intros ?]
    | case_decide | case_match ].

Lemma touches_only_shared_step (self : BenetechModule) (b : nat)
    (stage : string) :
  respects (touches_only b) (_shared_step self b stage).
Proof.
  unfold _shared_step, _log, call_model, call_generate, call_batch_decode,
    call_metric.
  repeat respects_step (touches_only_refl b) (touches_only_trans b).
Qed.


(** X9: whatever the state and whether it returns or raises, a training
    step only calls the forward pass and logs: it never generates, decodes
    or scores, leaves the metric, the files and every other dictionary
    alone, and takes entries out of its own batch without adding any. *)
Theorem training_step_footprint (self : BenetechModule) (b : nat)
    (stage : string) (st : state) :
  let st' := (training_step self b stage st).2 in
  touches_only b st st' ∧
  metrics st' = metrics st ∧
  Forall forward_or_log (new_events st st').
Proof.
  intros st'. split; [|split].
  - apply touches_only_shared_step.
  - assert (H : respects keeps_metrics (training_step self b stage)).
    { unfold training_step, _shared_step, _log, call_model.
      repeat respects_step keeps_metrics_refl keeps_metrics_trans.
      all: simplify_eq. }
    apply H.
  - assert (H : sound forward_or_log (training_step self b stage)).
    { unfold training_step, _shared_step, _log, call_model.
      repeat sound_step. all: simplify_eq. }
    destruct (H st) as [_ (evs & He & Hall)].
    fold st' in He. by rewrite (new_events_app _ _ _ He).
Qed.

Lemma shared_step_raise (self : BenetechModule) (b : nat) (stage : string)
    (st st' : state) (e : exn) :
  _shared_step self b stage st = (Raise e, st') →
  metrics st' = metrics st ∧
  existsb is_metric_update (new_events st st') = false.
Proof.
  assert (Hnew : ∀ st1 evs,
    events st1 = events st ++ evs → existsb is_metric_update evs = false →
    existsb is_metric_update (new_events st st1) = false).
  { intros st1 evs He Hevs. by rewrite (new_events_app _ _ _ He). }
  unfold _shared_step, dict_pop, mbind, M_bind, lift. simpl.
  destruct (heap st !! b) as [d|] eqn:Hb;
    [|intros [= _ <-]; split; [done|by apply (Hnew _ []); rewrite ?app_nil_r]].
  destruct (d !! "labels") as [vl|] eqn:Hl;
    [|intros [= _ <-]; split; [done|by apply (Hnew _ []); rewrite ?app_nil_r]].
  simpl. rewrite lookup_insert_eq, lookup_delete_ne by done.
  destruct (d !! "flattened_patches") as [vf|] eqn:Hf;
    [|intros [= _ <-]; split; [done|by apply (Hnew _ []); rewrite ?app_nil_r]].
  simpl. rewrite lookup_insert_eq, !lookup_delete_ne by done.
  destruct (d !! "attention_mask") as [va|] eqn:Ha;
    [|intros [= _ <-]; split; [done|by apply (Hnew _ []); rewrite ?app_nil_r]].
  simpl.
  destruct vf as [fp|];
    [|intros [= _ <-]; split; [done|by apply (Hnew _ []); rewrite ?app_nil_r]].
  destruct va as [am|];
    [|intros [= _ <-]; split; [done|by apply (Hnew _ []); rewrite ?app_nil_r]].
  destruct vl as [labels|];
    [|intros [= _ <-]; split; [done|by apply (Hnew _ []); rewrite ?app_nil_r]].
  simpl. destruct (len labels) as [n|] eqn:Hn;
    [|intros [= _ <-]; split; [done|by eapply Hnew]].
  simpl. case_decide as Hstage; [|done]. simpl.
  rewrite lookup_insert_eq, !lookup_delete_ne by done.
  destruct (d !! "texts") as [vt|] eqn:Ht;
    [|intros [= _ <-]; split; [done|]; eapply Hnew;
      [simpl; by rewrite <- !(assoc_L (++))|done]].
  simpl. destruct vt as [|texts]; [|done].
  intros [= _ <-]. split; [done|]. eapply Hnew;
    [simpl; by rewrite <- !(assoc_L (++))|done].
Qed.

(** X10: whatever the state, a validation step leaves the files,
    [validation_step_outputs] and every other dictionary alone and only
    takes entries out of its own batch; when it raises, the metric has
    not been updated. *)
Theorem validation_step_footprint (self : BenetechModule) (b idx : nat)
    (st : state) :
  let res := validation_step self b idx st in
  touches_only b st res.2 ∧
  (∀ e, res.1 = Raise e →
        metrics res.2 = metrics st ∧
        existsb is_metric_update (new_events st res.2) = false).
Proof.
  intros res. split.
  - assert (H : respects (touches_only b) (validation_step self b idx)).
    { unfold validation_step.
      apply respects_bind; [apply touches_only_trans| |intros ?].
      - apply touches_only_shared_step.
      - apply respects_ret, touches_only_refl. }
    apply H.
  - intros e. unfold res, validation_step, mbind, M_bind.
    destruct (_shared_step self b "valid" st) as [[r0|e0] st1] eqn:Hs; [done|].
    intros _. simpl. by apply (shared_step_raise _ _ _ _ _ _ Hs).
Qed.

(** *** Construction and the data module, beyond the claims *)

(** X11: the module is constructed exactly for "google/deplot"; the
    constructed module holds the pretrained model switched to decoder
    mode and the processor it was given, the metric starts afresh,
    [validation_step_outputs] is empty, and the one call made is the
    loading of the model. *)
Theorem module_init_succeeds_iff (hp : HParams) (p : Processor)
    (st st' : state) (self : BenetechModule) :
  BenetechModule_init hp p st = (Ok self, st') ↔
  hp_model_path hp = "google/deplot" ∧
  self = {| hparams := hp;
            model := {| params := model_from_pretrained "google/deplot";
                        is_decoder := true |};
            processor := p |} ∧
  st' = State (heap st) [] metric_init
              (events st ++ [ModelFromPretrained "google/deplot"])
              (files st).
Proof.
  unfold BenetechModule_init, _init_model, _init_metrics, mbind, M_bind.
  case_decide as Hpath; simpl.
  - split.
    + by intros [= <- <-].
    + by intros (_ & -> & ->).
  - split; [done|]. by intros [? _].
Qed.

(** X12: what [setup] loads.  For "fit" the train split and then the
    validation split, for "test" the validation split only, for any other
    stage nothing at all; the datasets built carry the data module's
    processor and [max_patches]. *)
Theorem setup_loads (self : BenetechDataModule) (stage : string)
    (st : state) :
  let dir := dm_data_dir (dm_hparams self) in
  (stage = "fit" →
     ∃ dm st',
       setup self stage st = (Ok dm, st') ∧
       train_dataset dm = Some (split_dataset self "train") ∧
       val_dataset dm = Some (split_dataset self "validation") ∧
       new_events st st'
         = [LoadDataset dir "train"; LoadDataset dir "validation"]) ∧
  (stage = "test" →
     ∃ dm st',
       setup self stage st = (Ok dm, st') ∧
       train_dataset dm = train_dataset self ∧
       val_dataset dm = Some (split_dataset self "validation") ∧
       new_events st st' = [LoadDataset dir "validation"]) ∧
  (stage ≠ "fit" → stage ≠ "test" → setup self stage st = (Ok self, st)).
Proof.
  intros dir. split; [|split].
  - intros ->. unfold setup, _dataset, mbind, M_bind. simpl.
    eexists _, _. split; [done|]. simpl. repeat (split; [done|]).
    apply new_events_app. simpl. by rewrite <- (assoc_L (++)).
  - intros ->. unfold setup, _dataset, mbind, M_bind. simpl.
    eexists _, _. split; [done|]. simpl. repeat (split; [done|]).
    by apply new_events_app.
  - intros Hfit Htest. unfold setup, mbind, M_bind.
    rewrite decide_False by done. simpl. by rewrite decide_False.
Qed.

(** X13: which data loaders a freshly constructed data module can hand
    out.  Before any [setup] all three raise [AttributeError]; after
    [setup "fit"] the train loader shuffles the train split and the
    validation and test loaders, which are the same, go through the
    validation split in order; after [setup "test"] alone the train loader
    still raises. *)
Theorem dataloaders_after_setup (hp : DataHParams) (stage : string)
    (st0 st1 st2 : state) (dm dm' : BenetechDataModule) :
  BenetechDataModule_init hp st0 = (Ok dm, st1) →
  setup dm stage st1 = (Ok dm', st2) →
  (∀ st, train_dataloader dm st = (Raise (AttributeError "train_dataset"), st) ∧
         val_dataloader dm st = (Raise (AttributeError "val_dataset"), st) ∧
         test_dataloader dm st = (Raise (AttributeError "val_dataset"), st)) ∧
  (stage = "fit" → ∀ st,
     train_dataloader dm' st
       = (Ok (_dataloader dm' (split_dataset dm "train") true), st) ∧
     val_dataloader dm' st
       = (Ok (_dataloader dm' (split_dataset dm "validation") false), st) ∧
     dl_shuffle (_dataloader dm' (split_dataset dm "train") true) = true ∧
     dl_shuffle (_dataloader dm' (split_dataset dm "validation") false)
       = false) ∧
  (stage = "test" → ∀ st,
     train_dataloader dm' st
       = (Raise (AttributeError "train_dataset"), st) ∧
     val_dataloader dm' st
       = (Ok (_dataloader dm' (split_dataset dm "validation") false), st)) ∧
  (∀ st, test_dataloader dm' st = val_dataloader dm' st).
Proof.
  unfold BenetechDataModule_init, mbind, M_bind. simpl. intros [= <- <-] Hsetup.
  split; [done|]. split; [|split; [|done]].
  - intros ->. revert Hsetup. unfold setup, _dataset, mbind, M_bind. simpl.
    by intros [= <- <-].
  - intros ->. revert Hsetup. unfold setup, _dataset, mbind, M_bind. simpl.
    by intros [= <- <-].
Qed.

(** *** The driver, beyond the claims *)

Lemma sound_no_loading_shared_step (self : BenetechModule) (b : nat)
    (stage : string) :
  sound (λ ev, is_loading ev = false) (_shared_step self b stage).
Proof.
  unfold _shared_step, _log, call_model, call_generate, call_batch_decode,
    call_metric.
  repeat sound_step.
Qed.

Lemma sound_no_loading_run_hooks (self : BenetechModule)
    (dm : BenetechDataModule) (hs : list hook) :
  sound (λ ev, is_loading ev = false) (run_hooks self dm hs).
Proof.
  induction hs as [|h hs IH]; simpl; [apply sound_ret|].
  apply sound_bind; [|intros ?; apply IH].
  destruct h; unfold run_hook, train_dataloader, val_dataloader, load_batch,
    training_step, validation_step, on_validation_epoch_end;
    repeat first [ apply sound_no_loading_shared_step | sound_step ].
Qed.

Lemma sound_no_loading_on_train_end (self : BenetechModule) :
  sound (λ ev, is_loading ev = false) (on_train_end self).
Proof. unfold on_train_end, save_pretrained. repeat sound_step. Qed.


(** X14: a run with the supported model loads each thing once and in a
    fixed order: after seeding, the processor, the logger setup, the
    model, the train split, the validation split; whatever the training
    loop then makes the module do, nothing is loaded again. *)
Theorem train_loads_once (config : Cli.Config) (st : state) :
  Cli.model_path config = "google/deplot" →
  ∃ rest,
    new_events st (train config st).2
      = [SeedEverything (Cli.seed config) true;
         ProcessorFromPretrained (Cli.processor_path config);
         LoadLoggerAndCallbacks;
         ModelFromPretrained "google/deplot";
         LoadDataset (Cli.data_dir config) "train";
         LoadDataset (Cli.data_dir config) "validation"] ++ rest ∧
    Forall (λ ev, is_loading ev = false) rest.
Proof.
  intros Hpath.
  unfold train, BenetechDataModule_init, BenetechModule_init, _init_model,
    fit, setup, _dataset, mbind, M_bind. simpl.
  rewrite Hpath, decide_True by done. simpl.
  match goal with
  | |- context [ run_hooks ?self ?dm ?hs ?s ] =>
      pose proof (sound_no_loading_run_hooks self dm hs s)
        as [_ (evs1 & He1 & Hall1)];
      pose proof (sound_no_loading_on_train_end self) as Hend;
      destruct (run_hooks self dm hs s) as [[[]|e] st7]
  end; simpl in He1.
  - destruct (Hend st7) as [_ (evs2 & He2 & Hall2)].
    exists (evs1 ++ evs2). split; [|by apply Forall_app_2].
    apply new_events_app. rewrite He2, He1. by rewrite <- !(assoc_L (++)).
  - exists evs1. split; [|done].
    apply new_events_app. simpl. rewrite He1. by rewrite <- !(assoc_L (++)).
Qed.


(** X17: only validation steps touch the metric.  Training steps, the
    train-end hook and, in particular, the validation-epoch-end hook leave
    it as it is, so the module never resets the metric it scores with. *)
Theorem metric_changes_only_in_validation (self : BenetechModule) (c : call)
    (st : state) :
  is_validation_step c = false →
  metrics (run_call self c st).2 = metrics st.
Proof.
  intros Hc.
  assert (H : respects keeps_metrics (run_call self c)).
  { destruct c as [b stage|b idx| |]; [|done| |].
    - unfold run_call, training_step, _shared_step, _log, call_model.
      repeat respects_step keeps_metrics_refl keeps_metrics_trans.
      all: simplify_eq.
    - by intros st1.
    - unfold run_call, on_train_end, save_pretrained, write_file.
      intros st1. unfold mbind, M_bind. by destruct (hp_save_model _). }
  apply H.
Qed.

End Benetech.

(** *** The command line *)

Lemma foldl_store_fast_dev_run (ns : Cli.Namespace) (argv : list Cli.flag) :
  Cli.unset Cli.sets_fast_dev_run argv →
  Cli.ns_fast_dev_run (foldl Cli.store ns argv) = Cli.ns_fast_dev_run ns.
Proof.
  unfold Cli.unset. revert ns.
  induction argv as [|f argv IH]; intros ns; simpl; [done|].
  destruct f; simpl; try done; intros H; by rewrite IH.
Qed.

Lemma foldl_store_seed (ns : Cli.Namespace) (argv : list Cli.flag) :
  Cli.unset Cli.sets_seed argv →
  Cli.ns_seed (foldl Cli.store ns argv) = Cli.ns_seed ns.
Proof.
  unfold Cli.unset. revert ns.
  induction argv as [|f argv IH]; intros ns; simpl; [done|].
  destruct f; simpl; try done; intros H; by rewrite IH.
Qed.

Lemma foldl_store_batch_size (ns : Cli.Namespace) (argv : list Cli.flag) :
  Cli.unset Cli.sets_batch_size argv →
  Cli.ns_batch_size (foldl Cli.store ns argv) = Cli.ns_batch_size ns.
Proof.
  unfold Cli.unset. revert ns.
  induction argv as [|f argv IH]; intros ns; simpl; [done|].
  destruct f; simpl; try done; intros H; by rewrite IH.
Qed.

Lemma foldl_store_accumulate_grad_batches (ns : Cli.Namespace)
    (argv : list Cli.flag) :
  Cli.unset Cli.sets_accumulate_grad_batches argv →
  Cli.ns_accumulate_grad_batches (foldl Cli.store ns argv)
    = Cli.ns_accumulate_grad_batches ns.
Proof.
  unfold Cli.unset. revert ns.
  induction argv as [|f argv IH]; intros ns; simpl; [done|].
  destruct f; simpl; try done; intros H; by rewrite IH.
Qed.

Lemma foldl_store_max_patches (ns : Cli.Namespace) (argv : list Cli.flag) :
  Cli.unset Cli.sets_max_patches argv →
  Cli.ns_max_patches (foldl Cli.store ns argv) = Cli.ns_max_patches ns.
Proof.
  unfold Cli.unset. revert ns.
  induction argv as [|f argv IH]; intros ns; simpl; [done|].
  destruct f; simpl; try done; intros H; by rewrite IH.
Qed.

(** The four flags whose default names their own parameter fall back to
    the configuration's value; an unset [--max_patches] falls back to the
    configuration's batch size. *)
Lemma parse_args_unset_flags (c : Cli.Config) (argv : list Cli.flag) :
  (Cli.unset Cli.sets_fast_dev_run argv →
     Cli.fast_dev_run (Cli.parse_args c argv) = false) ∧
  (Cli.unset Cli.sets_seed argv →
     Cli.seed (Cli.parse_args c argv) = Cli.seed c) ∧
  (Cli.unset Cli.sets_batch_size argv →
     Cli.batch_size (Cli.parse_args c argv) = Cli.batch_size c) ∧
  (Cli.unset Cli.sets_accumulate_grad_batches argv →
     Cli.accumulate_grad_batches (Cli.parse_args c argv)
       = Cli.accumulate_grad_batches c) ∧
  (Cli.unset Cli.sets_max_patches argv →
     Cli.max_patches (Cli.parse_args c argv) = Cli.batch_size c).
Proof.
  unfold Cli.parse_args, Cli.parser_parse_args. simpl.
  repeat split; intros H.
  - by rewrite foldl_store_fast_dev_run.
  - by rewrite foldl_store_seed.
  - by rewrite foldl_store_batch_size.
  - by rewrite foldl_store_accumulate_grad_batches.
  - by rewrite foldl_store_max_patches.
Qed.

(** C2: with no flag on the command line, [parse_args] leaves
    [max_patches] at 3, the configuration's batch size, where the
    configuration object itself says 1024; the other four flags keep the
    configuration's values. *)
Theorem parse_args_max_patches_default :
  Cli.unset Cli.sets_max_patches [] ∧
  Cli.max_patches Cli.config = 1024%Z ∧
  Cli.max_patches (Cli.parse_args Cli.config []) = 3%Z ∧
  Cli.max_patches (Cli.parse_args Cli.config [])
    ≠ Cli.max_patches Cli.config ∧
  Cli.fast_dev_run (Cli.parse_args Cli.config [])
    = Cli.fast_dev_run Cli.config ∧
  Cli.seed (Cli.parse_args Cli.config []) = Cli.seed Cli.config ∧
  Cli.batch_size (Cli.parse_args Cli.config []) = Cli.batch_size Cli.config ∧
  Cli.accumulate_grad_batches (Cli.parse_args Cli.config [])
    = Cli.accumulate_grad_batches Cli.config.
Proof. repeat split; done. Qed.

Lemma foldl_store_fast_dev_run_or (ns : Cli.Namespace)
    (argv : list Cli.flag) :
  Cli.ns_fast_dev_run (foldl Cli.store ns argv)
    = Cli.ns_fast_dev_run ns || existsb Cli.sets_fast_dev_run argv.
Proof.
  revert ns. induction argv as [|f argv IH]; intros ns; simpl.
  - by rewrite orb_false_r.
  - rewrite IH. destruct f; simpl; try done. by rewrite orb_true_r.
Qed.

(** X16: how [parse_args] reads a command line.  For each of the four
    integer flags the last occurrence decides; dry-run mode is on exactly
    when [--fast_dev_run] occurs, whatever the configuration said before;
    and no command line changes any of the other sixteen settings. *)
Theorem parse_args_last_wins (c : Cli.Config) (argv rest : list Cli.flag)
    (v : Z) :
  (Cli.unset Cli.sets_seed rest →
     Cli.seed (Cli.parse_args c (argv ++ Cli.Seed v :: rest)) = v) ∧
  (Cli.unset Cli.sets_batch_size rest →
     Cli.batch_size (Cli.parse_args c (argv ++ Cli.BatchSize v :: rest)) = v) ∧
  (Cli.unset Cli.sets_accumulate_grad_batches rest →
     Cli.accumulate_grad_batches
       (Cli.parse_args c (argv ++ Cli.AccumulateGradBatches v :: rest)) = v) ∧
  (Cli.unset Cli.sets_max_patches rest →
     Cli.max_patches (Cli.parse_args c (argv ++ Cli.MaxPatches v :: rest))
       = v) ∧
  Cli.fast_dev_run (Cli.parse_args c argv)
    = existsb Cli.sets_fast_dev_run argv ∧
  (let c' := Cli.parse_args c argv in
   Cli.data_dir c' = Cli.data_dir c ∧
   Cli.model_save_dir c' = Cli.model_save_dir c ∧
   Cli.model_path c' = Cli.model_path c ∧
   Cli.processor_path c' = Cli.processor_path c ∧
   Cli.project c' = Cli.project c ∧
   Cli.save_model c' = Cli.save_model c ∧
   Cli.max_length c' = Cli.max_length c ∧
   Cli.epochs c' = Cli.epochs c ∧
   Cli.learning_rate c' = Cli.learning_rate c ∧
   Cli.verbose c' = Cli.verbose c ∧
   Cli.num_workers c' = Cli.num_workers c ∧
   Cli.accelerator c' = Cli.accelerator c ∧
   Cli.overfit_batches c' = Cli.overfit_batches c ∧
   Cli.devices c' = Cli.devices c ∧
   Cli.precision c' = Cli.precision c ∧
   Cli.log_every_n_steps c' = Cli.log_every_n_steps c).
Proof.
  unfold Cli.parse_args, Cli.parser_parse_args. simpl.
  rewrite !foldl_app. simpl.
  split; [|split; [|split; [|split; [|split]]]].
  - intros H. by rewrite foldl_store_seed.
  - intros H. by rewrite foldl_store_batch_size.
  - intros H. by rewrite foldl_store_accumulate_grad_batches.
  - intros H. by rewrite foldl_store_max_patches.
  - by rewrite foldl_store_fast_dev_run_or.
  - repeat split.
Qed.

(** *** The statements at work on the sample processor and batch *)

Lemma collator_batch_shapes_witness :
  let p := {| image_processor := Sample.patches; tokenizer := Sample.tok |} in
  let batch := [encode_item p 2 (5, "ab"); encode_item p 2 (7, "abcd")] in
  processor_shapes 2 p ∧ truncate_spec (tokenizer p) ∧ batch ≠ [] ∧
  Forall (encoded_sample p) batch ∧ same_patch_shape batch ∧
  ∃ b fp am labels,
    collator p 4 batch = Ok b ∧
    b !! "flattened_patches" = Some (VTensor fp) ∧
    stack (flattened_patches <$> batch) = Ok fp ∧
    leading_dim b "flattened_patches" = Some 2 ∧
    b !! "attention_mask" = Some (VTensor am) ∧
    stack (attention_mask <$> batch) = Ok am ∧
    leading_dim b "attention_mask" = Some 2 ∧
    b !! "labels" = Some (VTensor labels) ∧
    length (shape labels) = 2 ∧
    leading_dim b "labels" = Some 2 ∧
    sequence_length labels = Some (5 `min` 4).
Proof.
  intros p batch.
  assert (H1 : processor_shapes 2 p) by (intros img mp Hmp; done).
  assert (H2 : truncate_spec (tokenizer p)).
  { intros n ids. simpl. rewrite length_take. split; [lia|]. apply take_ge. }
  assert (H3 : batch ≠ []) by done.
  assert (H4 : Forall (encoded_sample p) batch).
  { repeat constructor; eexists _, 2%Z; (split; [lia|reflexivity]). }
  assert (H5 : same_patch_shape batch).
  { intros s s' Hs Hs'.
    apply list_elem_of_In in Hs, Hs'. simpl in Hs, Hs'.
    destruct Hs as [<- | [<- | []]]; destruct Hs' as [<- | [<- | []]];
      reflexivity. }
  repeat (split; [assumption|]).
  exact (collator_batch_shapes 2 p 4 batch H1 H2 H3 H4 H5).
Defined.

Lemma longest_padding_idempotent_witness :
  let p := {| image_processor := Sample.patches; tokenizer := Sample.tok |} in
  let tok := tokenizer p in
  let texts := ["ab"; "cd"] in
  truncate_spec tok ∧
  Forall (λ ids, length ids = 3) (tokenized tok texts) ∧ 3 ≤ 4 ∧
  pad_longest tok (truncate tok 4 <$> tokenized tok texts)
    = tokenized tok texts.
Proof.
  intros p tok texts.
  assert (H1 : truncate_spec tok).
  { intros n ids. simpl. rewrite length_take. split; [lia|]. apply take_ge. }
  assert (H2 : Forall (λ ids, length ids = 3) (tokenized tok texts)).
  { repeat constructor. }
  assert (H3 : 3 ≤ 4) by lia.
  repeat (split; [assumption|]).
  exact (proj1 (longest_padding_idempotent p 4 3 texts H1 H2 H3)).
Defined.

Lemma training_step_logs_train_loss_witness :
  let p := {| image_processor := Sample.patches; tokenizer := Sample.tok |} in
  let self := {| hparams := Sample.hp;
                 model := {| params := (); is_decoder := true |};
                 processor := p |} in
  let st := State {[ 0 := Sample.batch ]} [] 0 [] ∅ in
  heap st !! 0 = Some Sample.batch ∧
  is_batch Sample.batch Sample.labels Sample.fp Sample.am Sample.texts 2 ∧
  ∃ st',
    training_step Sample.forward Sample.generate Sample.metric_update
      Sample.metric_compute self 0 "train" st = (Ok (Some 8%Z), st') ∧
    new_events st st'
      = [ModelForward Sample.fp Sample.am Sample.labels;
         Log "train_loss" 8%Z None 2].
Proof.
  intros p self st.
  assert (H1 : heap st !! 0 = Some Sample.batch) by reflexivity.
  assert (H2 : is_batch Sample.batch Sample.labels Sample.fp Sample.am
                 Sample.texts 2).
  { repeat split; reflexivity. }
  repeat (split; [assumption|]).
  exact (training_step_logs_train_loss Sample.forward Sample.generate
           Sample.metric_update Sample.metric_compute self 0 "train" st
           Sample.batch Sample.labels Sample.fp Sample.am Sample.texts 2
           H1 H2).
Defined.

Lemma validation_step_returns_nothing_witness :
  let p := {| image_processor := Sample.patches; tokenizer := Sample.tok |} in
  let self := {| hparams := Sample.hp;
                 model := {| params := (); is_decoder := true |};
                 processor := p |} in
  let st := State {[ 0 := Sample.batch ]} [] 0 [] ∅ in
  heap st !! 0 = Some Sample.batch ∧
  is_batch Sample.batch Sample.labels Sample.fp Sample.am Sample.texts 2 ∧
  (∃ st',
     validation_step Sample.forward Sample.generate Sample.metric_update
       Sample.metric_compute self 0 0 st = (Ok None, st')) ∧
  (∃ st',
     training_step Sample.forward Sample.generate Sample.metric_update
       Sample.metric_compute self 0 "train" st = (Ok (Some 8%Z), st')).
Proof.
  intros p self st.
  assert (H1 : heap st !! 0 = Some Sample.batch) by reflexivity.
  assert (H2 : is_batch Sample.batch Sample.labels Sample.fp Sample.am
                 Sample.texts 2).
  { repeat split; reflexivity. }
  repeat (split; [assumption|]).
  destruct (validation_step_returns_nothing Sample.forward Sample.generate
              Sample.metric_update Sample.metric_compute self 0 0 "train" st
              Sample.batch Sample.labels Sample.fp Sample.am Sample.texts 2
              H1 H2) as [(st' & Hv & _) [Ht _]].
  split; [by exists st'|exact Ht].
Defined.

Lemma validation_generation_is_configured_witness :
  let p := {| image_processor := Sample.patches; tokenizer := Sample.tok |} in
  let self := {| hparams := Sample.hp;
                 model := {| params := (); is_decoder := true |};
                 processor := p |} in
  let st := State {[ 0 := Sample.batch ]} [] 0 [] ∅ in
  heap st !! 0 = Some Sample.batch ∧
  is_batch Sample.batch Sample.labels Sample.fp Sample.am Sample.texts 2 ∧
  filter is_generate
    (new_events st
       (validation_step Sample.forward Sample.generate Sample.metric_update
          Sample.metric_compute self 0 0 st).2)
    = [ModelGenerate
         {| gen_flattened_patches := Sample.fp;
            gen_attention_mask := Sample.am;
            max_new_tokens := 512;
            early_stopping := true;
            use_cache := true;
            gen_eos_token_id := 1;
            gen_pad_token_id := 0 |}].
Proof.
  intros p self st.
  assert (H1 : heap st !! 0 = Some Sample.batch) by reflexivity.
  assert (H2 : is_batch Sample.batch Sample.labels Sample.fp Sample.am
                 Sample.texts 2).
  { repeat split; reflexivity. }
  repeat (split; [assumption|]).
  exact (proj2 (validation_generation_is_configured Sample.forward
                  Sample.generate Sample.metric_update Sample.metric_compute
                  self 0 0 st)
               Sample.batch Sample.labels Sample.fp Sample.am Sample.texts 2
               H1 H2).
Defined.

Lemma shared_step_consumes_batch_witness :
  let p := {| image_processor := Sample.patches; tokenizer := Sample.tok |} in
  let self := {| hparams := Sample.hp;
                 model := {| params := (); is_decoder := true |};
                 processor := p |} in
  let st := State {[ 0 := Sample.batch ]} [] 0 [] ∅ in
  heap st !! 0 = Some Sample.batch ∧
  is_batch Sample.batch Sample.labels Sample.fp Sample.am Sample.texts 2 ∧
  ∃ r st',
    validation_step Sample.forward Sample.generate Sample.metric_update
      Sample.metric_compute self 0 0 st = (Ok r, st') ∧
    heap st' !! 0 = Some (delete "texts" (popped Sample.batch)).
Proof.
  intros p self st.
  assert (H1 : heap st !! 0 = Some Sample.batch) by reflexivity.
  assert (H2 : is_batch Sample.batch Sample.labels Sample.fp Sample.am
                 Sample.texts 2).
  { repeat split; reflexivity. }
  repeat (split; [assumption|]).
  destruct (shared_step_consumes_batch Sample.forward Sample.generate
              Sample.metric_update Sample.metric_compute self 0 st
              Sample.batch H1) as (_ & Hvalid & Hruns).
  destruct (Hruns _ _ _ _ _ "train" 0 H2) as [_ (r & st' & Hv)].
  exists r, st'. split; [exact Hv|].
  destruct (Hvalid 0 r st' Hv) as (d' & Hd' & -> & _). exact Hd'.
Defined.

Lemma unsupported_model_path_raises_witness :
  let p := {| image_processor := Sample.patches; tokenizer := Sample.tok |} in
  let st := State ∅ [] 0 [] ∅ in
  Cli.model_path Sample.other_model ≠ "google/deplot" ∧
  ∃ st',
    train (λ _, p) (λ _, ()) Sample.forward Sample.generate 0
      Sample.metric_update Sample.metric_compute (λ _ _, [])
      (λ _ _ _ _, None) (λ _ _ _, []) Sample.other_model st
      = (Raise (ValueError "google/matcha is not a valid model"), st') ∧
    new_events st st'
      = [SeedEverything 0 true; ProcessorFromPretrained "google/deplot";
         LoadLoggerAndCallbacks] ∧
    existsb is_load_dataset (new_events st st') = false.
Proof.
  intros p st.
  assert (H1 : Cli.model_path Sample.other_model ≠ "google/deplot") by done.
  split; [assumption|].
  exact (proj2 (unsupported_model_path_raises (λ _, p) (λ _, ())
                  Sample.forward Sample.generate 0 Sample.metric_update
                  Sample.metric_compute (λ _ _, []) (λ _ _ _ _, None)
                  (λ _ _ _, []))
               Sample.other_model st H1).
Defined.

Lemma on_train_end_saves_iff_flag_witness :
  let p := {| image_processor := Sample.patches; tokenizer := Sample.tok |} in
  let self := {| hparams := Sample.hp;
                 model := {| params := (); is_decoder := true |};
                 processor := p |} in
  let st : @state Z () nat := State ∅ [] 0 [] ∅ in
  ∃ st',
    on_train_end self st = (Ok (), st') ∧
    files st' = <["/models/run-1.pt" := model self]> (files st).
Proof.
  intros p self st.
  destruct (on_train_end_saves_iff_flag self st) as (st' & Hrun & Hsave & _).
  exists st'. split; [exact Hrun|]. exact (proj1 (Hsave eq_refl)).
Defined.

Lemma validation_step_outputs_always_empty_witness :
  let p := {| image_processor := Sample.patches; tokenizer := Sample.tok |} in
  let self := {| hparams := Sample.hp;
                 model := {| params := (); is_decoder := true |};
                 processor := p |} in
  let st : @state Z () nat := State ∅ [VTexts ["stale"]] 7 [] ∅ in
  let st0 : @state Z () nat :=
    State ∅ [] 0 [ModelFromPretrained "google/deplot"] ∅ in
  BenetechModule_init (λ _, ()) 0 Sample.hp p st = (Ok self, st0) ∧
  validation_step_outputs st0 = [] ∧
  validation_step_outputs
    (run_call Sample.forward Sample.generate Sample.metric_update
       Sample.metric_compute self (ValidationStep 0 0) st0).2 = [].
Proof.
  intros p self st st0.
  assert (H1 : BenetechModule_init (λ _, ()) 0 Sample.hp p st = (Ok self, st0))
    by reflexivity.
  split; [assumption|].
  destruct (validation_step_outputs_always_empty (λ _, ()) Sample.forward
              Sample.generate 0 Sample.metric_update Sample.metric_compute
              (λ _ _, []) (λ _ _ _, [])
              Sample.hp p self st st0 H1) as [Hinit Hall].
  split; [exact Hinit|].
  exact (proj1 (Hall _ (reach_call _ _ _ _ self st0 st0 (ValidationStep 0 0)
                          (reach_init _ _ _ _ self st0)))).
Defined.

Lemma getitem_shapes_witness :
  let p := {| image_processor := Sample.patches; tokenizer := Sample.tok |} in
  let ds := {| dataset := [(5, "ab")]; ds_processor := p;
               ds_max_patches := 1 |} in
  let s := encode_item p 1 (5, "ab") in
  processor_shapes 2 (ds_processor ds) ∧ (0 < ds_max_patches ds)%Z ∧ 1 < 2 ∧
  getitem ds 0 = Ok s ∧
  shape (flattened_patches s) = [2] ∧ shape (attention_mask s) = [] ∧
  len (attention_mask s) = Raise (TypeError "len() of a 0-d tensor").
Proof.
  intros p ds s.
  assert (H1 : processor_shapes 2 (ds_processor ds))
    by (intros img mp Hmp; done).
  assert (H2 : (0 < ds_max_patches ds)%Z) by (simpl; lia).
  assert (H3 : 1 < 2) by lia.
  assert (H4 : getitem ds 0 = Ok s) by reflexivity.
  repeat (split; [assumption|]).
  exact (proj2 (getitem_shapes 2 ds 0 s H1 H2 H3 H4) eq_refl).
Defined.

Lemma dataset_samples_collate_witness :
  let p := {| image_processor := Sample.patches; tokenizer := Sample.tok |} in
  let ds := {| dataset := [(5, "ab"); (7, "abcd")]; ds_processor := p;
               ds_max_patches := 2 |} in
  let samples := [encode_item p 2 (7, "abcd"); encode_item p 2 (5, "ab")] in
  processor_shapes 2 (ds_processor ds) ∧ (0 < ds_max_patches ds)%Z ∧
  [1; 0] ≠ [] ∧
  Forall2 (λ i s, getitem ds i = Ok s) [1; 0] samples ∧
  ∃ b, collator (ds_processor ds) 4 samples = Ok b ∧
       b !! "texts" = Some (VTexts ["abcd"; "ab"]).
Proof.
  intros p ds samples.
  assert (H1 : processor_shapes 2 (ds_processor ds))
    by (intros img mp Hmp; done).
  assert (H2 : (0 < ds_max_patches ds)%Z) by (simpl; lia).
  assert (H3 : [1; 0] ≠ []) by done.
  assert (H4 : Forall2 (λ i s, getitem ds i = Ok s) [1; 0] samples)
    by (repeat constructor).
  repeat (split; [assumption|]).
  destruct (dataset_samples_collate 2 ds 4 [1; 0] samples H1 H2 H3 H4)
    as (b & Hb & Ht & _).
  exists b. split; [exact Hb|exact Ht].
Defined.

Lemma collated_batch_after_steps_witness :
  let p := {| image_processor := Sample.patches; tokenizer := Sample.tok |} in
  let self := {| hparams := Sample.hp;
                 model := {| params := (); is_decoder := true |};
                 processor := p |} in
  let batch := [encode_item p 1 (5, "ab"); encode_item p 1 (7, "abcd")] in
  let st := State {[ 0 := Sample.batch ]} [] 0 [] ∅ in
  collator p 4 batch = Ok Sample.batch ∧
  heap st !! 0 = Some Sample.batch ∧
  ∃ st',
    validation_step Sample.forward Sample.generate Sample.metric_update
      Sample.metric_compute self 0 0 st = (Ok None, st') ∧
    heap st' !! 0 = Some ∅.
Proof.
  intros p self batch st.
  assert (H1 : collator p 4 batch = Ok Sample.batch) by reflexivity.
  assert (H2 : heap st !! 0 = Some Sample.batch) by reflexivity.
  repeat (split; [assumption|]).
  exact (proj2 (collated_batch_after_steps Sample.forward Sample.generate
                  Sample.metric_update Sample.metric_compute p 4 batch
                  Sample.batch self 0 st "train" 0 H1 H2)).
Defined.

Lemma shared_step_missing_key_witness :
  let p := {| image_processor := Sample.patches; tokenizer := Sample.tok |} in
  let self := {| hparams := Sample.hp;
                 model := {| params := (); is_decoder := true |};
                 processor := p |} in
  let d : gmap string value := {[ "labels" := VTensor Sample.labels ]} in
  let st := State {[ 0 := d ]} [] 0 [] ∅ in
  heap st !! 0 = Some d ∧
  ∃ st',
    _shared_step Sample.forward Sample.generate Sample.metric_update
      Sample.metric_compute self 0 "train" st
      = (Raise (KeyError "flattened_patches"), st') ∧
    heap st' !! 0 = Some (delete "labels" d) ∧
    events st' = events st.
Proof.
  intros p self d st.
  assert (H1 : heap st !! 0 = Some d) by reflexivity.
  split; [assumption|].
  apply (proj1 (proj2 (shared_step_missing_key Sample.forward Sample.generate
                         Sample.metric_update Sample.metric_compute
                         self 0 "train" st d H1))).
  - by eexists.
  - reflexivity.
Defined.

Lemma validation_step_without_texts_witness :
  let p := {| image_processor := Sample.patches; tokenizer := Sample.tok |} in
  let self := {| hparams := Sample.hp;
                 model := {| params := (); is_decoder := true |};
                 processor := p |} in
  let d := delete "texts" Sample.batch in
  let st := State {[ 0 := d ]} [] 0 [] ∅ in
  heap st !! 0 = Some d ∧
  has_tensors d Sample.labels Sample.fp Sample.am 2 ∧
  d !! "texts" = None ∧
  ∃ st',
    validation_step Sample.forward Sample.generate Sample.metric_update
      Sample.metric_compute self 0 0 st = (Raise (KeyError "texts"), st') ∧
    metrics st' = 0.
Proof.
  intros p self d st.
  assert (H1 : heap st !! 0 = Some d) by reflexivity.
  assert (H2 : has_tensors d Sample.labels Sample.fp Sample.am 2)
    by (split; reflexivity).
  assert (H3 : d !! "texts" = None) by reflexivity.
  repeat (split; [assumption|]).
  destruct (validation_step_without_texts Sample.forward Sample.generate
              Sample.metric_update Sample.metric_compute self 0 0 st d
              Sample.labels Sample.fp Sample.am 2 H1 H2 H3)
    as (st' & Hrun & _ & Hm & _).
  exists st'. split; [exact Hrun|exact Hm].
Defined.

Lemma batch_serves_one_step_witness :
  let p := {| image_processor := Sample.patches; tokenizer := Sample.tok |} in
  let self := {| hparams := Sample.hp;
                 model := {| params := (); is_decoder := true |};
                 processor := p |} in
  let st := State {[ 0 := Sample.batch ]} [] 0 [] ∅ in
  let step := training_step Sample.forward Sample.generate
                Sample.metric_update Sample.metric_compute self 0 "train" in
  let st1 := (step st).2 in
  step st = (Ok (Some 8%Z), st1) ∧
  validation_step Sample.forward Sample.generate Sample.metric_update
    Sample.metric_compute self 0 0 st1 = (Raise (KeyError "labels"), st1).
Proof.
  intros p self st step st1.
  assert (H1 : step st = (Ok (Some 8%Z), st1)) by reflexivity.
  split; [assumption|].
  exact (proj2 (batch_serves_one_step Sample.forward Sample.generate
                  Sample.metric_update Sample.metric_compute self 0 0 "train"
                  st st1 (Some 8%Z) (or_introl H1) "train" 0)).
Defined.

Lemma dataloaders_after_setup_witness :
  let p := {| image_processor := Sample.patches; tokenizer := Sample.tok |} in
  let hp := {| dm_data_dir := "/data/"; dm_processor_path := "google/deplot";
               dm_batch_size := 3; dm_max_length := 512;
               dm_num_workers := 4; dm_max_patches := 2 |} in
  let st0 : @state Z () nat := State ∅ [] 0 [] ∅ in
  let init := BenetechDataModule_init (λ _, p) hp st0 in
  let dm := {| dm_hparams := hp; dm_processor := p;
               train_dataset := None; val_dataset := None |} in
  let after := setup (λ _ _, []) dm "test" init.2 in
  let dm' := {| dm_hparams := hp; dm_processor := p;
                train_dataset := None;
                val_dataset := Some {| dataset := []; ds_processor := p;
                                       ds_max_patches := 2 |} |} in
  init = (Ok dm, init.2) ∧ after = (Ok dm', after.2) ∧
  train_dataloader dm' st0 = (Raise (AttributeError "train_dataset"), st0).
Proof.
  intros p hp st0 init dm after dm'.
  assert (H1 : init = (Ok dm, init.2)) by reflexivity.
  assert (H2 : after = (Ok dm', after.2)) by reflexivity.
  repeat (split; [assumption|]).
  destruct (dataloaders_after_setup (λ _, p) (λ _ _, []) hp "test" st0
              init.2 after.2 dm dm' H1 H2) as (_ & _ & Htest & _).
  exact (proj1 (Htest eq_refl st0)).
Defined.

Lemma train_loads_once_witness :
  let p := {| image_processor := Sample.patches; tokenizer := Sample.tok |} in
  let st : @state Z () nat := State ∅ [] 0 [] ∅ in
  let run := train (λ _, p) (λ _, ()) Sample.forward Sample.generate 0
               Sample.metric_update Sample.metric_compute
               (λ _ _, [(5, "ab")]) (λ _ _ _ _, None)
               (λ _ _ _, [TrainBatch [0]; ValidBatch [0] 0])
               Cli.config st in
  Cli.model_path Cli.config = "google/deplot" ∧
  ∃ rest,
    new_events st run.2
      = [SeedEverything 0 true; ProcessorFromPretrained "google/deplot";
         LoadLoggerAndCallbacks; ModelFromPretrained "google/deplot";
         LoadDataset "/data/bartley/gpu_test/bartley-benetech-resized/" "train";
         LoadDataset "/data/bartley/gpu_test/bartley-benetech-resized/"
                     "validation"] ++ rest ∧
    Forall (λ ev, is_loading ev = false) rest.
Proof.
  intros p st run.
  assert (H1 : Cli.model_path Cli.config = "google/deplot") by reflexivity.
  split; [assumption|].
  exact (train_loads_once (λ _, p) (λ _, ()) Sample.forward Sample.generate 0
           Sample.metric_update Sample.metric_compute
           (λ _ _, [(5, "ab")]) (λ _ _ _ _, None)
           (λ _ _ _, [TrainBatch [0]; ValidBatch [0] 0]) Cli.config st H1).
Defined.


Lemma metric_changes_only_in_validation_witness :
  let p := {| image_processor := Sample.patches; tokenizer := Sample.tok |} in
  let self := {| hparams := Sample.hp;
                 model := {| params := (); is_decoder := true |};
                 processor := p |} in
  let st := State {[ 0 := Sample.batch ]} [] 7 [] ∅ in
  is_validation_step OnValidationEpochEnd = false ∧
  metrics (run_call Sample.forward Sample.generate Sample.metric_update
             Sample.metric_compute self OnValidationEpochEnd st).2 = 7.
Proof.
  intros p self st.
  assert (H1 : is_validation_step OnValidationEpochEnd = false) by reflexivity.
  split; [assumption|].
  exact (metric_changes_only_in_validation Sample.forward Sample.generate
           Sample.metric_update Sample.metric_compute self
           OnValidationEpochEnd st H1).
Defined.
